(** * Fund rotation between Aave and Silo on Sonic: model and properties

    A shallow embedding of [src/fundMovement/SmartWallet.ts] (class
    [SonicSmartWallet]), [src/constants/contract.ts] and [src/index.ts]
    (the rotation loop), together with the two [ethers] helpers the wallet
    relies on for unit conversion ([parseUnits], [formatUnits]).

    Asynchronous methods become computations in a state-and-exception
    monad: the state is the outside world (chain and wallet service)
    paired with the chronological trace of observable effects (console
    lines, pauses, submitted transactions); a JavaScript [throw] is the
    [Throw] outcome and [try]/[catch] is [try_catch]. *)

From Stdlib Require Import ZArith List String Ascii Bool Lia.
From Stdlib Require Import DecimalString DecimalPos.
Import ListNotations.

#[local] Open Scope string_scope.
#[local] Open Scope Z_scope.

(** ** JavaScript values used by the wallet *)

(** A thrown [Error] object, identified by its message. *)
Inductive exn : Type :=
| Error (message : string).

Inductive Result (A : Type) : Type :=
| Ok (a : A)
| Throw (e : exn).
Arguments Ok {A} a.
Arguments Throw {A} e.

Definition result_bind {A B : Type} (r : Result A) (k : A -> Result B) : Result B :=
  match r with
  | Ok a => k a
  | Throw e => Throw e
  end.

(** [BigInt.prototype.toString()]: canonical decimal rendering. *)
Definition toString (z : Z) : string :=
  NilZero.string_of_int (Z.to_int z).

Definition is_digit (c : ascii) : bool :=
  ((48 <=? nat_of_ascii c) && (nat_of_ascii c <=? 57))%nat.

Definition digit_value (c : ascii) : Z := Z.of_nat (nat_of_ascii c) - 48.

Fixpoint all_digits (s : string) : bool :=
  match s with
  | EmptyString => true
  | String c s' => is_digit c && all_digits s'
  end.

Fixpoint digits_value_acc (s : string) (acc : Z) : Z :=
  match s with
  | EmptyString => acc
  | String c s' => digits_value_acc s' (10 * acc + digit_value c)
  end.

(** The number a run of decimal digits denotes. *)
Definition digits_value (s : string) : Z := digits_value_acc s 0.

(** [BigInt(s)] on the decimal forms the wallet produces: an optional
    minus sign followed by digits (leading zeros allowed); the empty
    string is [0n], anything else is a [SyntaxError]. *)
Definition BigInt (s : string) : Result Z :=
  match s with
  | EmptyString => Ok 0
  | String c digits =>
    if Ascii.eqb c "-"
    then
      if negb (String.eqb digits EmptyString) && all_digits digits
      then Ok (- digits_value digits)
      else Throw (Error ("Cannot convert " ++ s ++ " to a BigInt"))
    else
      if all_digits s
      then Ok (digits_value s)
      else Throw (Error ("Cannot convert " ++ s ++ " to a BigInt"))
  end.

(** ** ethers: fixed-point parsing and formatting

    [ethers.parseUnits(value, decimals)] is
    [FixedNumber.fromString(value, { decimals, width: 512 }).value] and
    [ethers.formatUnits(value, decimals)] is
    [FixedNumber.fromValue(value, decimals, { decimals, width: 512 }).toString()].
    Both belong to the ethers library (version 6), not to the repository;
    they are modelled here because the unit converter and the balance
    guard are thin wrappers around them. *)
Module Ethers.

Definition is_zero_char (c : ascii) : bool := Ascii.eqb c "0".

(** Longest prefix of digits, and what follows it (a greedy digit run). *)
Fixpoint span_digits (s : string) : string * string :=
  match s with
  | EmptyString => (EmptyString, EmptyString)
  | String c s' =>
    if is_digit c
    then let (d, r) := span_digits s' in (String c d, r)
    else (EmptyString, s)
  end.

(** The regular expression [fromString] matches its argument against:
    an optional minus sign, a greedy run of digits, an optional point,
    a second run of digits, end of input. Returns the three groups, or
    [None] when the string does not match. *)
Definition match_unsigned (s1 : string) : option (string * string) :=
  let (whole, s2) := span_digits s1 in
  let s3 :=
    match s2 with
    | String c r => if Ascii.eqb c "." then r else s2
    | EmptyString => s2
    end in
  let (frac, s4) := span_digits s3 in
  match s4 with
  | EmptyString => Some (whole, frac)
  | _ => None
  end.

Definition match_fixed (s : string) : option (string * string * string) :=
  let (sign, s1) :=
    match s with
    | String c r => if Ascii.eqb c "-" then ("-", r) else (EmptyString, s)
    | EmptyString => (EmptyString, s)
    end in
  match match_unsigned s1 with
  | Some (whole, frac) => Some (sign, whole, frac)
  | None => None
  end.

Fixpoint all_zeros (s : string) : bool :=
  match s with
  | EmptyString => true
  | String c s' => is_zero_char c && all_zeros s'
  end.

Fixpoint zeros (n : nat) : string :=
  match n with
  | O => EmptyString
  | S n' => String "0" (zeros n')
  end.

(** [s.substring(n)] *)
Fixpoint drop (n : nat) (s : string) : string :=
  match n, s with
  | O, _ => s
  | S n', String _ s' => drop n' s'
  | S _, EmptyString => EmptyString
  end.

(** [s.substring(0, n)] *)
Fixpoint take (n : nat) (s : string) : string :=
  match n, s with
  | S n', String c s' => String c (take n' s')
  | _, _ => EmptyString
  end.

(** [checkValue(val, format, safeOp)] for the signed format of the given
    width: inside the range the two's-complement round trip is the
    identity, outside it the call throws. *)
Definition checkValue (val : Z) (width : nat) : Result Z :=
  let limit := 2 ^ (Z.of_nat width - 1) in
  if (- limit <=? val) && (val <? limit)
  then Ok val
  else Throw (Error "overflow").

(** [getFormat({ decimals, width })]: the checks on the format itself. *)
Definition getFormat (decimals width : nat) : Result (nat * nat) :=
  if negb (width mod 8 =? 0)%nat
  then Throw (Error "invalid FixedNumber width (not byte aligned)")
  else if (80 <? decimals)%nat
  then Throw (Error "invalid FixedNumber decimals (too large)")
  else Ok (decimals, width).

(** [FixedNumber.fromString(value, { decimals, width })]. The library
    pads the fraction with blocks of zeros until it is at least
    [decimals] long and then cuts it back to [decimals]; padding to
    exactly [decimals] gives the same cut and the same remainder test. *)
Definition fromString (value : string) (decimals width : nat) : Result Z :=
  match match_fixed value with
  | None => Throw (Error "invalid FixedNumber string value")
  | Some (sign, m2, m3) =>
    if (String.length m2 + String.length m3 =? 0)%nat
    then Throw (Error "invalid FixedNumber string value")
    else
      result_bind (getFormat decimals width) (fun _ =>
        let whole := match m2 with EmptyString => "0" | _ => m2 end in
        let decimal := m3 ++ zeros (decimals - String.length m3) in
        if negb (all_zeros (drop decimals decimal))
        then Throw (Error "too many decimals for format")
        else
          let decimal := take decimals decimal in
          result_bind (BigInt (sign ++ whole ++ decimal)) (fun v =>
            checkValue v width))
  end.

Definition parseUnits (value : string) (unit : nat) : Result Z :=
  fromString value unit 512.

(** Drop leading zeros of the whole part, keeping the digit before the
    point: [while (str[0] === "0" && str[1] !== ".") str = str.substring(1)]. *)
Fixpoint trim_whole (s : string) : string :=
  match s with
  | String c ((String c' _) as s') =>
    if Ascii.eqb c "0" && negb (Ascii.eqb c' ".") then trim_whole s' else s
  | _ => s
  end.

Fixpoint rev_string (s : string) (acc : string) : string :=
  match s with
  | EmptyString => acc
  | String c s' => rev_string s' (String c acc)
  end.

(** The private [toString(val, decimals)] of [FixedNumber]: insert the
    point [decimals] places from the right, then trim zeros on both
    sides down to one digit. *)
Definition fixed_toString (val : Z) (decimals : nat) : string :=
  let negative := if val <? 0 then "-" else EmptyString in
  let str := toString (Z.abs val) in
  match decimals with
  | O => negative ++ str
  | _ =>
    let str := zeros (S decimals - String.length str) ++ str in
    let index := (String.length str - decimals)%nat in
    let str := take index str ++ "." ++ drop index str in
    let str := trim_whole str in
    let str := rev_string (trim_whole (rev_string str EmptyString)) EmptyString in
    negative ++ str
  end.

(** [getBigInt(value)] on a string argument. *)
Definition getBigInt (value : string) : Result Z :=
  match value with
  | EmptyString => Throw (Error "invalid BigNumberish string: empty string")
  | String c rest =>
    if Ascii.eqb c "-" && negb (String.prefix "-" rest)
    then result_bind (BigInt rest) (fun v => Ok (- v))
    else BigInt value
  end.

Definition formatUnits (value : string) (unit : nat) : Result string :=
  result_bind (getBigInt value) (fun v =>
  result_bind (getFormat unit 512) (fun _ =>
  result_bind (checkValue v 512) (fun v =>
  Ok (fixed_toString v unit)))).

End Ethers.

(** ** The state-and-exception monad *)

Section Monad.

Variable St : Type.

Definition M (A : Type) : Type := St -> St * Result A.

Definition ret {A : Type} (a : A) : M A := fun st => (st, Ok a).

Definition throw {A : Type} (e : exn) : M A := fun st => (st, Throw e).

Definition bind {A B : Type} (m : M A) (k : A -> M B) : M B :=
  fun st =>
    match m st with
    | (st', Ok a) => k a st'
    | (st', Throw e) => (st', Throw e)
    end.

(** [try { m } catch (error) { handler error }]: what [m] did to the
    state before throwing stays done. *)
Definition try_catch {A : Type} (m : M A) (handler : exn -> M A) : M A :=
  fun st =>
    match m st with
    | (st', Ok a) => (st', Ok a)
    | (st', Throw e) => handler e st'
    end.

(** A synchronous library call that may throw. *)
Definition lift {A : Type} (r : Result A) : M A := fun st => (st, r).

End Monad.

Arguments ret {St A} a.
Arguments throw {St A} e.
Arguments bind {St A B} m k.
Arguments try_catch {St A} m handler.
Arguments lift {St A} r.

Declare Scope monad_scope.
Delimit Scope monad_scope with monad.
Notation "x <- m ;; k" := (bind m (fun x => k))
  (at level 61, m at next level, right associativity) : monad_scope.
Notation "m ;; k" := (bind m (fun _ => k))
  (at level 61, right associativity) : monad_scope.
#[local] Open Scope monad_scope.

(** ** Constants ([src/constants/contract.ts]) *)

Module CONTRACT_ADDRESSES.
Definition AAVE : string := "0x5362dBb1e601abF3a4c14c22ffEdA64042E5eAA3".
Definition SILO : string := "0x9Fa3C1E843d8eb1387827E5d77c07E8BB97B1e50".
Definition USDC_TOKEN : string := "0x29219dd400f2Bf60E5a23d13Be72B486D4038894".
Definition B_USDC_TOKEN : string := "0x322e1d5384aa4ED66AeCa770B95686271de61dc3".
End CONTRACT_ADDRESSES.

Definition SILO_COLLATERAL : string := "1".

(** ** Handles and prepared transactions *)

(** A contract handle as returned by [getContract]: only the address
    matters to the wallet. *)
Record Contract : Type := getContract { contract_address : string }.

Record Account : Type := mkAccount { address : string }.

(** The connected smart wallet; [getAccount()] may return [undefined]. *)
Record SmartWallet : Type := mkSmartWallet { getAccount : option Account }.

Inductive Param : Type :=
| PString (s : string)
| PArray (items : list string).

(** An unsubmitted call. [ContractCall] is [prepareContractCall]
    (the handle is read from a field that may still be [undefined]);
    [Erc20Approve] is the [approve] helper of the ERC-20 extension. *)
Inductive PreparedTransaction : Type :=
| ContractCall (contract : option Contract) (method : string) (params : list Param)
| Erc20Approve (contract : Contract) (spender : string) (amount : string).

Definition prepareContractCall (contract : option Contract) (method : string)
    (params : list Param) : PreparedTransaction :=
  ContractCall contract method params.

Definition approve (contract : Contract) (spender amount : string) : PreparedTransaction :=
  Erc20Approve contract spender amount.

(** Observable effects, in the order they happen. *)
Inductive Effect : Type :=
| ConsoleLog (line : string)
| ConsoleError (line : string) (error : exn)
| Sleep (milliseconds : Z)
| SendTransaction (transaction : PreparedTransaction) (account : Account)
| SendBatchTransaction (transactions : list PreparedTransaction) (account : Account).

Definition is_submission (e : Effect) : bool :=
  match e with
  | SendTransaction _ _ | SendBatchTransaction _ _ => true
  | _ => false
  end.

(** The submissions recorded in a trace. *)
Definition submissions (tr : list Effect) : list Effect := filter is_submission tr.

(** The fields of a [SonicSmartWallet] instance; [None] is [undefined]. *)
Record SonicSmartWallet : Type := mkWallet {
  smartWalletInstance : option SmartWallet;
  usdcContract : option Contract;
  aaveContract : option Contract;
  siloContract : option Contract;
  siloBusdContract : option Contract
}.

(** ** The outside world

    Everything the wallet reaches through [thirdweb] and the chain: each
    call may change the world and may throw. The ABI of the Silo router
    ([CONTRACT_ABIS.SILO_ABI]) is not part of the sources at hand, so the
    encoder built from it, [new ethers.Interface(SILO_ABI).encodeFunctionData],
    is a field as well; it is synchronous and does not touch the world. *)
Record Env (W : Type) : Type := mkEnv {
  env_decimals : Contract -> W -> W * Result nat;
  env_balanceOf : Contract -> string -> W -> W * Result Z;
  env_sendTransaction : PreparedTransaction -> Account -> W -> W * Result string;
  env_sendBatchTransaction : list PreparedTransaction -> Account -> W -> W * Result string;
  env_connect : W -> W * Result SmartWallet;
  env_encodeFunctionData : string -> list string -> Result string
}.
Arguments env_decimals {W} _ _ _.
Arguments env_balanceOf {W} _ _ _ _.
Arguments env_sendTransaction {W} _ _ _ _.
Arguments env_sendBatchTransaction {W} _ _ _ _.
Arguments env_connect {W} _ _.
Arguments env_encodeFunctionData {W} _ _ _.

Record State (W : Type) : Type := mkState {
  world : W;
  trace : list Effect
}.
Arguments mkState {W} world trace.
Arguments world {W} _.
Arguments trace {W} _.

Section Wallet.

Context {W : Type}.
Variable env : Env W.

Definition Run : Type -> Type := M (State W).

Definition emit (e : Effect) : Run unit :=
  fun st => (mkState (world st) (trace st ++ [e]), Ok tt).

Definition console_log (line : string) : Run unit := emit (ConsoleLog line).

Definition console_error (line : string) (error : exn) : Run unit :=
  emit (ConsoleError line error).

(** An external call: the world answers and moves on. *)
Definition ask {A : Type} (f : W -> W * Result A) : Run A :=
  fun st => let (w', r) := f (world st) in (mkState w' (trace st), r).

Definition decimals (contract : Contract) : Run nat :=
  ask (env_decimals env contract).

(** [balanceOf({ contract, address })]; reading through an [undefined]
    handle is a [TypeError]. *)
Definition balanceOf (contract : option Contract) (addr : string) : Run Z :=
  match contract with
  | Some c => ask (env_balanceOf env c addr)
  | None => throw (Error "Cannot read properties of undefined")
  end.

Definition sendTransaction (transaction : PreparedTransaction) (account : Account)
    : Run string :=
  emit (SendTransaction transaction account) ;;
  ask (env_sendTransaction env transaction account).

Definition sendBatchTransaction (transactions : list PreparedTransaction)
    (account : Account) : Run string :=
  emit (SendBatchTransaction transactions account) ;;
  ask (env_sendBatchTransaction env transactions account).

Definition sleep (milliseconds : Z) : Run unit := emit (Sleep milliseconds).

(** [if (!field) throw new Error(msg)], giving back the field's value. *)
Definition defined {A : Type} (field : option A) (msg : string) : Run A :=
  match field with
  | Some a => ret a
  | None => throw (Error msg)
  end.

(** *** Unit converter *)

Definition getTokenAmount (amount tokenAddress : string) : Run string :=
  try_catch
    (let tokenContract := getContract tokenAddress in
     tokenDecimals <- decimals tokenContract ;;
     units <- lift (Ethers.parseUnits amount tokenDecimals) ;;
     ret (toString units))
    (fun error =>
       console_error "Error converting token amount:" error ;;
       console_log "Falling back to 6 decimals for USDC" ;;
       units <- lift (Ethers.parseUnits amount 6) ;;
       ret (toString units)).

(** *** Balance guard *)

Definition hasEnoughUSDC (self : SonicSmartWallet) (amount : string) : Run bool :=
  try_catch
    (match smartWalletInstance self, usdcContract self with
     | Some instance, Some _ =>
       account <- defined (getAccount instance) "Failed to get account from smart wallet" ;;
       requiredAmount <- getTokenAmount amount CONTRACT_ADDRESSES.USDC_TOKEN ;;
       balance <- balanceOf (usdcContract self) (address account) ;;
       have <- lift (BigInt (toString balance)) ;;
       need <- lift (BigInt requiredAmount) ;;
       let hasEnough := have >=? need in
       (if negb hasEnough
        then
          available <- lift (Ethers.formatUnits (toString balance) 6) ;;
          console_log ("Insufficient USDC balance. Required: " ++ amount
                       ++ " USDC, Available: " ++ available ++ " USDC")
        else ret tt) ;;
       ret hasEnough
     | _, _ => throw (Error "Smart wallet or USDC contract not initialized")
     end)
    (fun error =>
       console_error "Error checking USDC balance:" error ;;
       throw error).

(** *** Aave: approve and supply in one batch, withdraw as a single call *)

Definition approveAndSupplyToAave (self : SonicSmartWallet) (amount : string) : Run string :=
  try_catch
    (hasBalance <- hasEnoughUSDC self amount ;;
     if negb hasBalance
     then throw (Error "Insufficient USDC balance for Aave supply")
     else
       instance <- defined (smartWalletInstance self) "Smart wallet not initialized" ;;
       _ <- defined (usdcContract self) "USDC contract not initialized" ;;
       _ <- defined (aaveContract self) "Contract 1 not initialized" ;;
       account <- defined (getAccount instance) "Failed to get account from smart wallet" ;;
       amountDecimals <- getTokenAmount amount CONTRACT_ADDRESSES.USDC_TOKEN ;;
       let approveTransaction :=
         prepareContractCall (usdcContract self) "approve"
           [PString CONTRACT_ADDRESSES.AAVE; PString amountDecimals] in
       let refferalCode := "0" in
       let depositTransaction :=
         prepareContractCall (aaveContract self) "supply"
           [PString CONTRACT_ADDRESSES.USDC_TOKEN; PString amountDecimals;
            PString (address account); PString refferalCode] in
       let combinedTransaction := [approveTransaction; depositTransaction] in
       batchTransaction <- sendBatchTransaction combinedTransaction account ;;
       console_log ("Deposit to AAVE completed: " ++ batchTransaction) ;;
       ret batchTransaction)
    (fun error =>
       console_error "Error in depositing to Aave:" error ;;
       throw error).

Definition withdrawFromAave (self : SonicSmartWallet) (amount : string) : Run string :=
  try_catch
    (instance <- defined (smartWalletInstance self) "Smart wallet not initialized" ;;
     _ <- defined (aaveContract self) "Contract 1 not initialized" ;;
     account <- defined (getAccount instance) "Failed to get account from smart wallet" ;;
     amountDecimals <- getTokenAmount amount CONTRACT_ADDRESSES.USDC_TOKEN ;;
     let withdrawTransaction :=
       prepareContractCall (aaveContract self) "withdraw"
         [PString CONTRACT_ADDRESSES.USDC_TOKEN; PString amountDecimals;
          PString (address account)] in
     result <- sendTransaction withdrawTransaction account ;;
     console_log ("Withdraw from Aave completed: " ++ result) ;;
     ret result)
    (fun error =>
       console_error "Error in Function 2:" error ;;
       throw error).

(** *** Calldata builder for the Silo router's multicall

    Each generator swallows an encoding failure: it writes to the error
    console and returns the empty string. *)

Definition generateTransferFromCalldata (from to amount : string) : Run string :=
  match env_encodeFunctionData env "transferFrom" [from; to; amount] with
  | Ok data => ret data
  | Throw error =>
    console_error "Error generating approve calldata:" error ;;
    ret EmptyString
  end.

Definition generateApproveCalldata (owner spender amount : string) : Run string :=
  match env_encodeFunctionData env "approve" [owner; spender; amount] with
  | Ok data => ret data
  | Throw error =>
    console_error "Error generating approve calldata:" error ;;
    ret EmptyString
  end.

Definition generateDepositCalldata (borrowedAsset amount collateral : string) : Run string :=
  match env_encodeFunctionData env "deposit" [borrowedAsset; amount; collateral] with
  | Ok data => ret data
  | Throw error =>
    console_error "Error generating deposit calldata:" error ;;
    ret EmptyString
  end.

(** *** Silo: approve and multicall in one batch, redeem as a single call *)

Definition approveAndDepositToSilo (self : SonicSmartWallet) (amount : string) : Run string :=
  try_catch
    (hasBalance <- hasEnoughUSDC self amount ;;
     if negb hasBalance
     then throw (Error "Insufficient USDC balance for Silo deposit")
     else
       instance <- defined (smartWalletInstance self) "Smart wallet not initialized" ;;
       usdc <- defined (usdcContract self) "USDC contract not initialized" ;;
       _ <- defined (siloContract self) "Contract 2 not initialized" ;;
       account <- defined (getAccount instance) "Failed to get account from smart wallet" ;;
       amountDecimals <- getTokenAmount amount CONTRACT_ADDRESSES.USDC_TOKEN ;;
       let approveTransaction :=
         approve usdc CONTRACT_ADDRESSES.SILO amountDecimals in
       let finalCalldata : list string := [] in
       transferFromCalldata <-
         generateTransferFromCalldata CONTRACT_ADDRESSES.USDC_TOKEN
           CONTRACT_ADDRESSES.SILO amountDecimals ;;
       let finalCalldata := (finalCalldata ++ [transferFromCalldata])%list in
       approveCalldata <-
         generateApproveCalldata CONTRACT_ADDRESSES.USDC_TOKEN
           CONTRACT_ADDRESSES.B_USDC_TOKEN amountDecimals ;;
       let finalCalldata := (finalCalldata ++ [approveCalldata])%list in
       depositCalldata <-
         generateDepositCalldata CONTRACT_ADDRESSES.B_USDC_TOKEN amountDecimals
           SILO_COLLATERAL ;;
       let finalCalldata := (finalCalldata ++ [depositCalldata])%list in
       let multicallTransaction :=
         prepareContractCall (siloContract self) "multicall" [PArray finalCalldata] in
       let combinedTransaction := [approveTransaction; multicallTransaction] in
       batchTransaction <- sendBatchTransaction combinedTransaction account ;;
       console_log ("Deposit completed: " ++ batchTransaction) ;;
       ret batchTransaction)
    (fun error =>
       console_error "Error in Function 3:" error ;;
       throw error).

Definition withdrawFromSilo (self : SonicSmartWallet) : Run string :=
  try_catch
    (instance <- defined (smartWalletInstance self) "Smart wallet not initialized" ;;
     _ <- defined (siloContract self) "Contract 2 not initialized" ;;
     account <- defined (getAccount instance) "Failed to get account from smart wallet" ;;
     balanceResult <- balanceOf (siloBusdContract self) (address account) ;;
     let amountDecimals := toString balanceResult in
     console_log ("Shares balance:  " ++ amountDecimals) ;;
     let withdrawTransaction :=
       prepareContractCall (siloBusdContract self) "redeem"
         [PString amountDecimals; PString (address account);
          PString (address account); PString SILO_COLLATERAL] in
     result <- sendTransaction withdrawTransaction account ;;
     console_log ("Withdraw from Silo completed: " ++ result) ;;
     ret result)
    (fun error =>
       console_error "Error in Withdrawing from Silo:" error ;;
       throw error).

(** *** Connecting the smart wallet *)

Definition initializeSmartWallet (self : SonicSmartWallet) : Run SonicSmartWallet :=
  try_catch
    (instance <- ask (env_connect env) ;;
     console_log ("Smart Wallet Address: "
                  ++ match getAccount instance with
                     | Some account => address account
                     | None => "undefined"
                     end) ;;
     ret (mkWallet (Some instance) (usdcContract self) (aaveContract self)
            (siloContract self) (siloBusdContract self)))
    (fun error =>
       console_error "Error initializing smart wallet:" error ;;
       throw error).

(** ** The rotation loop ([src/index.ts]) *)

Definition ROTATE_DURATION : Z := 15.
Definition newline : string := String (ascii_of_nat 10) EmptyString.
Definition cycles : nat := 10.
Definition AMOUNT : string := "1".

(** [for (let i = start; i < start + count; i++) body(i)] *)
Fixpoint for_loop (count : nat) (i : nat) (body : nat -> Run unit) : Run unit :=
  match count with
  | O => ret tt
  | S count' => body i ;; for_loop count' (S i) body
  end.

Definition cycle_body (wallet : SonicSmartWallet) (i : nat) : Run unit :=
  console_log (newline ++ " Cycle " ++ toString (Z.of_nat (i + 1)) ++ " of "
               ++ toString (Z.of_nat cycles)) ;;
  (if (0 <? i)%nat
   then _ <- withdrawFromSilo wallet ;; ret tt
   else ret tt) ;;
  console_log "Moving funds to Aave..." ;;
  _ <- approveAndSupplyToAave wallet AMOUNT ;;
  console_log ("Waiting " ++ toString ROTATE_DURATION ++ " seconds...") ;;
  sleep (ROTATE_DURATION * 1000) ;;
  console_log "Withdrawing from Aave..." ;;
  _ <- withdrawFromAave wallet AMOUNT ;;
  sleep (2 * 1000) ;;
  console_log "Moving funds to Silo..." ;;
  _ <- approveAndDepositToSilo wallet AMOUNT ;;
  (if (i <? cycles - 1)%nat
   then
     console_log ("Waiting " ++ toString ROTATE_DURATION
                  ++ " seconds before next cycle...") ;;
     sleep (ROTATE_DURATION * 1000)
   else ret tt).

(** [main()]: [fresh] is the instance the constructor built (contract
    handles set up, smart wallet not yet connected). *)
Definition main (fresh : SonicSmartWallet) : Run unit :=
  try_catch
    (wallet <- initializeSmartWallet fresh ;;
     for_loop cycles 0 (cycle_body wallet) ;;
     console_log (newline ++ " Fund rotation completed successfully!"))
    (fun err => console_error "Error during fund rotation:" err).

End Wallet.

Arguments Run W A : clear implicits.

(** ** Reading the wallet address *)

Section WalletAddress.

Context {W : Type}.

(** [getWalletAddress()]: the declared result is a string, but
    [getAccount()?.address] is [undefined] when no account is attached. *)
Definition getWalletAddress (self : SonicSmartWallet) : Run W (option string) :=
  match smartWalletInstance self with
  | None =>
    throw (Error "Smart wallet not initialized. Call initializeSmartWallet() first.")
  | Some instance => ret (option_map address (getAccount instance))
  end.

End WalletAddress.

(** ** A small concrete world

    A chain whose answers do not change: one token precision, one USDC
    balance, one bUSDC balance, every submission accepted. The encoder
    stands for the Silo router's interface: it renders a call as text and,
    like the ABI coder for an unsigned integer, refuses a negative amount. *)
Module Sample.

Definition account : Account := mkAccount "0xA11CE".

Definition join_args (args : list string) : string :=
  String.concat "," args.

Definition is_negative (s : string) : bool :=
  match s with
  | String "-" _ => true
  | _ => false
  end.

Definition encoder (method : string) (args : list string) : Result string :=
  if existsb is_negative args
  then Throw (Error "value out-of-bounds")
  else Ok (method ++ "(" ++ join_args args ++ ")").

Definition chain (precision : Result nat) (usdc busdc : Z) : Env unit :=
  mkEnv unit
    (fun _ w => (w, precision))
    (fun c _ w =>
       (w, Ok (if String.eqb (contract_address c) CONTRACT_ADDRESSES.B_USDC_TOKEN
               then busdc else usdc)))
    (fun _ _ w => (w, Ok "0xfeed"))
    (fun _ _ w => (w, Ok "0xbeef"))
    (fun w => (w, Ok (mkSmartWallet (Some account))))
    encoder.

(** The instance the constructor builds, before and after connecting. *)
Definition fresh : SonicSmartWallet :=
  mkWallet None
    (Some (getContract CONTRACT_ADDRESSES.USDC_TOKEN))
    (Some (getContract CONTRACT_ADDRESSES.AAVE))
    (Some (getContract CONTRACT_ADDRESSES.SILO))
    (Some (getContract CONTRACT_ADDRESSES.B_USDC_TOKEN)).

Definition wallet : SonicSmartWallet :=
  mkWallet (Some (mkSmartWallet (Some account)))
    (usdcContract fresh) (aaveContract fresh) (siloContract fresh)
    (siloBusdContract fresh).

Definition start : State unit := mkState tt [].

End Sample.

(** ** The rotation loop as a straight-line script

    [main] never looks at what a wallet method returns: every statement of
    the loop body is either a console line, a pause, or a call whose only
    influence on control is that a [throw] ends the run. The body is
    therefore also a list of actions, run one after the other. *)

Inductive WalletCall : Type :=
| CallWithdrawFromSilo
| CallApproveAndSupplyToAave (amount : string)
| CallWithdrawFromAave (amount : string)
| CallApproveAndDepositToSilo (amount : string).

Inductive Action : Type :=
| Say (line : string)
| Pause (milliseconds : Z)
| Invoke (call : WalletCall).

Definition cycle_script (i : nat) : list Action :=
  [Say (newline ++ " Cycle " ++ toString (Z.of_nat (i + 1)) ++ " of "
        ++ toString (Z.of_nat cycles))]
  ++ (if (0 <? i)%nat then [Invoke CallWithdrawFromSilo] else [])
  ++ [Say "Moving funds to Aave...";
      Invoke (CallApproveAndSupplyToAave AMOUNT);
      Say ("Waiting " ++ toString ROTATE_DURATION ++ " seconds...");
      Pause (ROTATE_DURATION * 1000);
      Say "Withdrawing from Aave...";
      Invoke (CallWithdrawFromAave AMOUNT);
      Pause (2 * 1000);
      Say "Moving funds to Silo...";
      Invoke (CallApproveAndDepositToSilo AMOUNT)]
  ++ (if (i <? cycles - 1)%nat
      then [Say ("Waiting " ++ toString ROTATE_DURATION
                 ++ " seconds before next cycle...");
            Pause (ROTATE_DURATION * 1000)]
      else []).

Definition rotation_script : list Action :=
  flat_map cycle_script (seq 0 cycles).

Definition wallet_call (a : Action) : list WalletCall :=
  match a with
  | Invoke c => [c]
  | _ => []
  end.

(** The wallet methods a script invokes, in order. *)
Definition wallet_calls (script : list Action) : list WalletCall :=
  flat_map wallet_call script.

(** What one rotation cycle is meant to call: the unwind of the Silo
    position on every cycle but the first, then supply, withdraw,
    deposit. *)
Definition cycle_calls (i : nat) : list WalletCall :=
  (if (i =? 0)%nat then [] else [CallWithdrawFromSilo])
  ++ [CallApproveAndSupplyToAave AMOUNT;
      CallWithdrawFromAave AMOUNT;
      CallApproveAndDepositToSilo AMOUNT].

Section Script.

Context {W : Type}.
Variable env : Env W.
Variable wallet : SonicSmartWallet.

Definition invoke (c : WalletCall) : Run W unit :=
  match c with
  | CallWithdrawFromSilo => _ <- withdrawFromSilo env wallet ;; ret tt
  | CallApproveAndSupplyToAave amount => _ <- approveAndSupplyToAave env wallet amount ;; ret tt
  | CallWithdrawFromAave amount => _ <- withdrawFromAave env wallet amount ;; ret tt
  | CallApproveAndDepositToSilo amount => _ <- approveAndDepositToSilo env wallet amount ;; ret tt
  end.

Definition perform (a : Action) : Run W unit :=
  match a with
  | Say line => console_log line
  | Pause ms => sleep ms
  | Invoke c => invoke c
  end.

Fixpoint run_script (script : list Action) : Run W unit :=
  match script with
  | [] => ret tt
  | a :: rest => perform a ;; run_script rest
  end.

(** The wallet methods actually entered when a script runs from [st]:
    the run stops at the first action that throws. *)
Fixpoint calls_made (script : list Action) (st : State W) : list WalletCall :=
  match script with
  | [] => []
  | a :: rest =>
    (wallet_call a
     ++ match perform a st with
        | (st', Ok _) => calls_made rest st'
        | (_, Throw _) => []
        end)%list
  end.

End Script.

(** ** Vocabulary of the statements *)

(** The text of a decimal amount: an optional minus sign, the digits of
    the whole part, an optional point and the digits of the fraction.
    Every string [fromString] accepts is of this form. *)
Definition decimal_text (negative : bool) (whole : string) (point : bool)
    (frac : string) : string :=
  (if negative then "-" else EmptyString)
  ++ whole ++ (if point then "." else EmptyString) ++ frac.

Definition sign_of (negative : bool) : Z := if negative then -1 else 1.

Definition starts_with_digit (s : string) : bool :=
  match s with
  | EmptyString => false
  | String c _ => is_digit c
  end.

Definition silent {W A : Type} (m : Run W A) : Prop :=
  forall st st' r, m st = (st', r) -> submissions (trace st') = submissions (trace st).

(** The line the guard prints when the balance does not cover the amount. *)
Definition insufficient_line (amount : string) (balance : Z) : string :=
  "Insufficient USDC balance. Required: " ++ amount
  ++ " USDC, Available: " ++ Ethers.fixed_toString balance 6 ++ " USDC".

(** A wallet whose smart wallet is connected to [account] and whose USDC
    handle is [usdc]. *)
Definition guard_ready (self : SonicSmartWallet) (account : Account) (usdc : Contract) : Prop :=
  exists instance,
    smartWalletInstance self = Some instance
    /\ getAccount instance = Some account
    /\ usdcContract self = Some usdc.

Fixpoint contains (needle haystack : string) : bool :=
  String.prefix needle haystack
  || match haystack with
     | String _ rest => contains needle rest
     | EmptyString => false
     end.

Definition console_text (e : Effect) : option string :=
  match e with
  | ConsoleLog line => Some line
  | ConsoleError line (Error message) => Some (line ++ " " ++ message)
  | _ => None
  end.

(** Some console line of the trace contains [text]. *)
Definition reports (text : string) (tr : list Effect) : Prop :=
  exists e line, In e tr /\ console_text e = Some line /\ contains text line = true.

(** The guard's output states the shortfall [need - balance] in human
    units (6 decimals). *)
Definition reports_shortfall {W : Type} (env : Env W) (self : SonicSmartWallet)
    (amount : string) (st : State W) (need balance : Z) : Prop :=
  exists shortfall,
    Ethers.formatUnits (toString (need - balance)) 6 = Ok shortfall
    /\ reports shortfall (trace (fst (hasEnoughUSDC env self amount st))).

(** The single call [withdrawFromSilo] builds: redeem [shares] to and
    from the account, under the collateral tag. *)
Definition redeem_call (busdc : Contract) (shares : Z) (account : Account)
    : PreparedTransaction :=
  ContractCall (Some busdc) "redeem"
    [PString (toString shares); PString (address account);
     PString (address account); PString SILO_COLLATERAL].

(** What a calldata generator hands back: the encoding, or the empty
    string when the encoder throws. *)
Definition calldata_or_empty {W : Type} (env : Env W) (method : string)
    (args : list string) : string :=
  match env_encodeFunctionData env method args with
  | Ok data => data
  | Throw _ => EmptyString
  end.

(** The three entries of the multicall, in the order they are pushed. *)
Definition silo_multicall_items {W : Type} (env : Env W) (amountDecimals : string)
    : list string :=
  [calldata_or_empty env "transferFrom"
     [CONTRACT_ADDRESSES.USDC_TOKEN; CONTRACT_ADDRESSES.SILO; amountDecimals];
   calldata_or_empty env "approve"
     [CONTRACT_ADDRESSES.USDC_TOKEN; CONTRACT_ADDRESSES.B_USDC_TOKEN; amountDecimals];
   calldata_or_empty env "deposit"
     [CONTRACT_ADDRESSES.B_USDC_TOKEN; amountDecimals; SILO_COLLATERAL]].

(** The batch [approveAndDepositToSilo] submits. *)
Definition silo_deposit_batch {W : Type} (env : Env W) (usdc silo : Contract)
    (amountDecimals : string) : list PreparedTransaction :=
  [Erc20Approve usdc CONTRACT_ADDRESSES.SILO amountDecimals;
   ContractCall (Some silo) "multicall" [PArray (silo_multicall_items env amountDecimals)]].

(** The batch [approveAndSupplyToAave] submits: approve the pool, then
    supply with the account as recipient and referral code 0. *)
Definition aave_supply_batch (usdc aave : Contract) (amountDecimals : string)
    (account : Account) : list PreparedTransaction :=
  [ContractCall (Some usdc) "approve"
     [PString CONTRACT_ADDRESSES.AAVE; PString amountDecimals];
   ContractCall (Some aave) "supply"
     [PString CONTRACT_ADDRESSES.USDC_TOKEN; PString amountDecimals;
      PString (address account); PString "0"]].

(** The single call [withdrawFromAave] submits. *)
Definition aave_withdraw_call (aave : Contract) (amountDecimals : string)
    (account : Account) : PreparedTransaction :=
  ContractCall (Some aave) "withdraw"
    [PString CONTRACT_ADDRESSES.USDC_TOKEN; PString amountDecimals;
     PString (address account)].

(** The amount has the shape the fixed-point parser accepts: it matches
    the decimal pattern and holds at least one digit. *)
Definition well_formed_amount (amount : string) : bool :=
  match Ethers.match_fixed amount with
  | Some (_, m2, m3) => negb (String.length m2 + String.length m3 =? 0)%nat
  | None => false
  end.

(** A computation that adds at most [k] submissions to the trace,
    however it ends. *)
Definition sends_at_most {W A : Type} (k : nat) (m : Run W A) : Prop :=
  forall st st' r,
    m st = (st', r) ->
    exists sent,
      submissions (trace st') = (submissions (trace st) ++ sent)%list
      /\ (List.length sent <= k)%nat.


(** Further sample worlds and wallets. *)

(** A chain on which every submission is refused. *)
Definition refusing (precision : nat) (usdc : Z) : Env unit :=
  mkEnv unit
    (fun _ w => (w, Ok precision))
    (fun _ _ w => (w, Ok usdc))
    (fun _ _ w => (w, Throw (Error "execution reverted")))
    (fun _ _ w => (w, Throw (Error "execution reverted")))
    (fun w => (w, Ok (mkSmartWallet (Some Sample.account))))
    Sample.encoder.

(** A chain whose balance reads fail. *)
Definition unreadable (precision : nat) : Env unit :=
  mkEnv unit
    (fun _ w => (w, Ok precision))
    (fun _ _ w => (w, Throw (Error "rpc timeout")))
    (fun _ _ w => (w, Ok "0xfeed"))
    (fun _ _ w => (w, Ok "0xbeef"))
    (fun w => (w, Ok (mkSmartWallet (Some Sample.account))))
    Sample.encoder.


(** A connected wallet whose constructor could not set up the Silo router. *)
Definition without_router : SonicSmartWallet :=
  mkWallet (Some (mkSmartWallet (Some Sample.account)))
    (usdcContract Sample.fresh) (aaveContract Sample.fresh) None
    (siloBusdContract Sample.fresh).

(** A chain whose precision read fails the first time it is asked and
    answers 18 afterwards; the world counts the reads. *)
Definition flaky : Env nat :=
  mkEnv nat
    (fun _ reads =>
       (S reads, match reads with
                 | O => Throw (Error "rpc timeout")
                 | S _ => Ok 18%nat
                 end))
    (fun _ _ w => (w, Ok 1000000))
    (fun _ _ w => (w, Ok "0xfeed"))
    (fun _ _ w => (w, Ok "0xbeef"))
    (fun w => (w, Ok (mkSmartWallet (Some Sample.account))))
    Sample.encoder.

(** * Properties *)

(** ** The fixed-point helpers on examples *)

Example parseUnits_1_6 : Ethers.parseUnits "1" 6 = Ok 1000000.
Proof. reflexivity. Qed.

Example parseUnits_1_18 : Ethers.parseUnits "1.0" 18 = Ok 1000000000000000000.
Proof. reflexivity. Qed.

Example parseUnits_trailing : Ethers.parseUnits "1.2500000" 6 = Ok 1250000.
Proof. reflexivity. Qed.

Example parseUnits_too_fine : Ethers.parseUnits "1.2345678" 6 = Throw (Error "too many decimals for format").
Proof. reflexivity. Qed.

Example parseUnits_neg : Ethers.parseUnits "-.5" 6 = Ok (-500000).
Proof. reflexivity. Qed.

Example formatUnits_half : Ethers.formatUnits "500000" 6 = Ok "0.5".
Proof. reflexivity. Qed.

Example formatUnits_one : Ethers.formatUnits "1000000" 6 = Ok "1.0".
Proof. reflexivity. Qed.

Example formatUnits_small : Ethers.formatUnits "1234567" 6 = Ok "1.234567".
Proof. reflexivity. Qed.

(** ** Decimal digits *)

Section Digits.

Lemma length_append (a b : string) :
  String.length (a ++ b) = (String.length a + String.length b)%nat.
Proof.
  induction a as [|c a IH]; simpl; [reflexivity | now rewrite IH].
Qed.

Lemma append_nil_r (a : string) : a ++ EmptyString = a.
Proof.
  induction a as [|c a IH]; simpl; [reflexivity | now rewrite IH].
Qed.

Lemma append_assoc (a b c : string) : (a ++ b) ++ c = a ++ b ++ c.
Proof.
  induction a as [|x a IH]; simpl; [reflexivity | now rewrite IH].
Qed.

Lemma all_digits_append (a b : string) :
  all_digits (a ++ b) = all_digits a && all_digits b.
Proof.
  induction a as [|c a IH]; simpl; [reflexivity |].
  now rewrite IH, andb_assoc.
Qed.

Lemma digit_value_range (c : ascii) :
  is_digit c = true -> 0 <= digit_value c <= 9.
Proof.
  unfold is_digit, digit_value. intros H.
  apply andb_true_iff in H. destruct H as [H1 H2].
  apply Nat.leb_le in H1. apply Nat.leb_le in H2. lia.
Qed.

Lemma digits_value_acc_shift (s : string) (acc : Z) :
  digits_value_acc s acc = acc * 10 ^ Z.of_nat (String.length s) + digits_value s.
Proof.
  unfold digits_value. revert acc.
  induction s as [|c s IH]; intros acc.
  - simpl. lia.
  - cbn [digits_value_acc String.length].
    rewrite (IH (10 * acc + digit_value c)), (IH (10 * 0 + digit_value c)).
    rewrite Nat2Z.inj_succ, Z.pow_succ_r by lia. ring.
Qed.

Lemma digits_value_cons (c : ascii) (s : string) :
  digits_value (String c s)
  = digit_value c * 10 ^ Z.of_nat (String.length s) + digits_value s.
Proof.
  unfold digits_value at 1. cbn [digits_value_acc].
  rewrite digits_value_acc_shift. ring.
Qed.

Lemma digits_value_append (a b : string) :
  digits_value (a ++ b)
  = digits_value a * 10 ^ Z.of_nat (String.length b) + digits_value b.
Proof.
  induction a as [|c a IH].
  - cbn [append]. change (digits_value EmptyString) with 0. lia.
  - cbn [append]. rewrite !digits_value_cons, IH, length_append.
    rewrite Nat2Z.inj_add, Z.pow_add_r by lia. ring.
Qed.

Lemma digits_value_bounds (s : string) :
  all_digits s = true -> 0 <= digits_value s < 10 ^ Z.of_nat (String.length s).
Proof.
  induction s as [|c s IH]; intros H.
  - unfold digits_value. simpl. lia.
  - cbn [all_digits] in H. apply andb_true_iff in H. destruct H as [Hc Hs].
    specialize (IH Hs). apply digit_value_range in Hc.
    rewrite digits_value_cons. cbn [String.length].
    rewrite Nat2Z.inj_succ, Z.pow_succ_r by lia.
    generalize dependent (10 ^ Z.of_nat (String.length s)). intros p IH. nia.
Qed.

Lemma length_zeros (n : nat) : String.length (Ethers.zeros n) = n.
Proof.
  induction n as [|n IH]; simpl; [reflexivity | now rewrite IH].
Qed.

Lemma all_digits_zeros (n : nat) : all_digits (Ethers.zeros n) = true.
Proof.
  induction n as [|n IH]; simpl; [reflexivity | exact IH].
Qed.

Lemma digits_value_zeros (n : nat) : digits_value (Ethers.zeros n) = 0.
Proof.
  induction n as [|n IH]; [reflexivity |].
  cbn [Ethers.zeros]. rewrite digits_value_cons, IH. reflexivity.
Qed.

Lemma all_zeros_zeros (n : nat) : Ethers.all_zeros (Ethers.zeros n) = true.
Proof.
  induction n as [|n IH]; simpl; [reflexivity | exact IH].
Qed.

Lemma digit_zero (c : ascii) :
  is_digit c = true -> digit_value c = 0 -> Ethers.is_zero_char c = true.
Proof.
  unfold digit_value, Ethers.is_zero_char. intros _ H.
  assert (E : nat_of_ascii c = 48%nat) by lia.
  apply (f_equal ascii_of_nat) in E. rewrite ascii_nat_embedding in E.
  subst c. reflexivity.
Qed.

(** A run of digits that denotes zero consists of zeros only. *)
Lemma digits_value_zero_all_zeros (s : string) :
  all_digits s = true -> digits_value s = 0 -> Ethers.all_zeros s = true.
Proof.
  induction s as [|c s IH]; intros Hd Hv; [reflexivity |].
  cbn [all_digits] in Hd. apply andb_true_iff in Hd. destruct Hd as [Hc Hs].
  rewrite digits_value_cons in Hv.
  pose proof (digit_value_range c Hc) as Rc.
  pose proof (digits_value_bounds s Hs) as Rs.
  assert (P : 0 < 10 ^ Z.of_nat (String.length s)) by (apply Z.pow_pos_nonneg; lia).
  assert (digit_value c = 0 /\ digits_value s = 0) as [E1 E2].
  { generalize dependent (10 ^ Z.of_nat (String.length s)). intros p. nia. }
  cbn [Ethers.all_zeros]. rewrite (digit_zero c Hc E1), (IH Hs E2). reflexivity.
Qed.

End Digits.

(** ** Printing and reading back big integers *)

Section BigIntText.

Lemma digit_not_minus (c : ascii) : is_digit c = true -> Ascii.eqb c "-" = false.
Proof.
  intros H. destruct (Ascii.eqb_spec c "-") as [->|]; [discriminate H | reflexivity].
Qed.

Lemma digit_not_point (c : ascii) : is_digit c = true -> Ascii.eqb c "." = false.
Proof.
  intros H. destruct (Ascii.eqb_spec c ".") as [->|]; [discriminate H | reflexivity].
Qed.

Lemma BigInt_digits (s : string) :
  all_digits s = true -> s <> EmptyString -> BigInt s = Ok (digits_value s).
Proof.
  destruct s as [|c s]; intros Hd Hne; [congruence |].
  unfold BigInt. rewrite Hd.
  cbn [all_digits] in Hd. apply andb_true_iff in Hd. destruct Hd as [Hc _].
  now rewrite (digit_not_minus c Hc).
Qed.

Lemma BigInt_minus_digits (s : string) :
  all_digits s = true -> s <> EmptyString ->
  BigInt (String "-" s) = Ok (- digits_value s).
Proof.
  intros Hd Hne. unfold BigInt. rewrite Ascii.eqb_refl, Hd.
  destruct (String.eqb_spec s EmptyString); [contradiction | reflexivity].
Qed.

Lemma all_digits_string_of_uint (d : Decimal.uint) :
  all_digits (NilEmpty.string_of_uint d) = true.
Proof.
  induction d; simpl; auto.
Qed.

Lemma length_string_of_uint (d : Decimal.uint) :
  Z.of_nat (String.length (NilEmpty.string_of_uint d)) = Z.of_N (Unsigned.usize d).
Proof.
  induction d; cbn [NilEmpty.string_of_uint String.length Unsigned.usize];
    rewrite ?Nat2Z.inj_succ, ?N2Z.inj_succ, ?IHd; reflexivity.
Qed.

Lemma of_uint_cons_eqn (d : Decimal.uint) (f : Decimal.uint -> Decimal.uint) (h : N) :
  (forall t, Unsigned.of_lu (f t) = h + 10 * Unsigned.of_lu t)%N ->
  (forall a b, Decimal.revapp (f a) b = Decimal.revapp a (f b)) ->
  (Pos.of_uint (f d) = h * 10 ^ Unsigned.usize d + Pos.of_uint d)%N.
Proof.
  intros Hlu Hrev.
  rewrite !Unsigned.of_uint_alt. unfold Decimal.rev at 1.
  rewrite Hrev, Unsigned.of_lu_revapp, Hlu. simpl Unsigned.of_lu. lia.
Qed.

Lemma digits_value_string_of_uint (d : Decimal.uint) :
  digits_value (NilEmpty.string_of_uint d) = Z.of_N (Pos.of_uint d).
Proof.
  induction d as [|d IH|d IH|d IH|d IH|d IH|d IH|d IH|d IH|d IH|d IH];
    [reflexivity | ..];
    cbn [NilEmpty.string_of_uint];
    rewrite digits_value_cons, IH, length_string_of_uint;
    [ rewrite (of_uint_cons_eqn d Decimal.D0 0)
    | rewrite (of_uint_cons_eqn d Decimal.D1 1)
    | rewrite (of_uint_cons_eqn d Decimal.D2 2)
    | rewrite (of_uint_cons_eqn d Decimal.D3 3)
    | rewrite (of_uint_cons_eqn d Decimal.D4 4)
    | rewrite (of_uint_cons_eqn d Decimal.D5 5)
    | rewrite (of_uint_cons_eqn d Decimal.D6 6)
    | rewrite (of_uint_cons_eqn d Decimal.D7 7)
    | rewrite (of_uint_cons_eqn d Decimal.D8 8)
    | rewrite (of_uint_cons_eqn d Decimal.D9 9) ];
    try reflexivity;
    rewrite N2Z.inj_add, N2Z.inj_mul, N2Z.inj_pow; reflexivity.
Qed.

Lemma string_of_uint_nonempty (d : Decimal.uint) :
  d <> Decimal.Nil -> NilEmpty.string_of_uint d <> EmptyString.
Proof.
  destruct d; simpl; congruence.
Qed.

Lemma toString_pos (p : positive) :
  toString (Z.pos p) = NilEmpty.string_of_uint (Pos.to_uint p).
Proof.
  unfold toString. cbn [Z.to_int NilZero.string_of_int].
  pose proof (Unsigned.to_uint_nonnil p) as H.
  unfold NilZero.string_of_uint. destruct (Pos.to_uint p); congruence.
Qed.

Lemma toString_neg (p : positive) :
  toString (Z.neg p) = String "-" (NilEmpty.string_of_uint (Pos.to_uint p)).
Proof.
  unfold toString. cbn [Z.to_int NilZero.string_of_int].
  pose proof (Unsigned.to_uint_nonnil p) as H.
  unfold NilZero.string_of_uint. destruct (Pos.to_uint p); congruence.
Qed.

(** Reading back what [toString] printed gives the same integer. *)
Lemma BigInt_toString (z : Z) : BigInt (toString z) = Ok z.
Proof.
  destruct z as [|p|p].
  - reflexivity.
  - rewrite toString_pos, BigInt_digits.
    + now rewrite digits_value_string_of_uint, Unsigned.of_to.
    + apply all_digits_string_of_uint.
    + apply string_of_uint_nonempty, Unsigned.to_uint_nonnil.
  - rewrite toString_neg, BigInt_minus_digits.
    + now rewrite digits_value_string_of_uint, Unsigned.of_to.
    + apply all_digits_string_of_uint.
    + apply string_of_uint_nonempty, Unsigned.to_uint_nonnil.
Qed.

(** A non-negative integer prints as digits only. *)
Lemma toString_nonneg_digits (z : Z) :
  0 <= z -> all_digits (toString z) = true /\ toString z <> EmptyString.
Proof.
  destruct z as [|p|p]; intros H.
  - split; [reflexivity | discriminate].
  - rewrite toString_pos. split.
    + apply all_digits_string_of_uint.
    + apply string_of_uint_nonempty, Unsigned.to_uint_nonnil.
  - lia.
Qed.

End BigIntText.

(** ** Reading a decimal amount *)

Section Parsing.

Lemma span_digits_run (run rest : string) :
  all_digits run = true -> starts_with_digit rest = false ->
  Ethers.span_digits (run ++ rest) = (run, rest).
Proof.
  intros Hd Hr. induction run as [|c run IH].
  - cbn [append]. destruct rest as [|c rest]; [reflexivity |].
    cbn in Hr. cbn [Ethers.span_digits]. now rewrite Hr.
  - cbn [all_digits] in Hd. apply andb_true_iff in Hd. destruct Hd as [Hc Hd].
    cbn [append Ethers.span_digits]. now rewrite Hc, (IH Hd).
Qed.

Lemma match_fixed_decimal_text (negative point : bool) (whole frac : string) :
  all_digits whole = true -> all_digits frac = true ->
  (point = false -> frac = EmptyString) ->
  Ethers.match_fixed (decimal_text negative whole point frac)
  = Some (if negative then "-" else EmptyString, whole, frac).
Proof.
  intros Hw Hf Hp.
  assert (Hspan : Ethers.match_unsigned
                    (whole ++ (if point then "." else EmptyString) ++ frac)
                  = Some (whole, frac)).
  { unfold Ethers.match_unsigned.
    rewrite span_digits_run; [| exact Hw | now destruct point; [| rewrite (Hp eq_refl)]].
    destruct point.
    - cbn [append]. rewrite Ascii.eqb_refl.
      rewrite <- (append_nil_r frac) at 1.
      now rewrite span_digits_run.
    - rewrite (Hp eq_refl). reflexivity. }
  unfold Ethers.match_fixed, decimal_text.
  destruct negative.
  - cbn [append]. rewrite Ascii.eqb_refl. now rewrite Hspan.
  - cbn [append].
    destruct (whole ++ (if point then "." else EmptyString) ++ frac) as [|c r] eqn:E.
    + now rewrite Hspan.
    + assert (Hc : Ascii.eqb c "-" = false).
      { destruct whole as [|c' w'].
        - destruct point; cbn in E.
          + now inversion E.
          + rewrite (Hp eq_refl) in E. discriminate.
        - cbn in E. inversion E; subst. cbn [all_digits] in Hw.
          apply andb_true_iff in Hw. now apply digit_not_minus. }
      rewrite Hc. now rewrite Hspan.
Qed.

Lemma take_all (n : nat) (s : string) :
  (String.length s <= n)%nat -> Ethers.take n s = s.
Proof.
  revert n. induction s as [|c s IH]; intros [|n] H; cbn in *; try reflexivity; try lia.
  now rewrite IH by lia.
Qed.

Lemma drop_all (n : nat) (s : string) :
  (String.length s <= n)%nat -> Ethers.drop n s = EmptyString.
Proof.
  revert n. induction s as [|c s IH]; intros [|n] H; cbn in *; try reflexivity; try lia.
  apply IH. lia.
Qed.

Lemma take_drop (n : nat) (s : string) : Ethers.take n s ++ Ethers.drop n s = s.
Proof.
  revert n. induction s as [|c s IH]; intros [|n]; cbn; try reflexivity.
  now rewrite IH.
Qed.

Lemma length_drop (n : nat) (s : string) :
  String.length (Ethers.drop n s) = (String.length s - n)%nat.
Proof.
  revert n. induction s as [|c s IH]; intros [|n]; cbn; try reflexivity.
  apply IH.
Qed.

Lemma all_digits_take_drop (n : nat) (s : string) :
  all_digits s = true ->
  all_digits (Ethers.take n s) = true /\ all_digits (Ethers.drop n s) = true.
Proof.
  intros H. rewrite <- (take_drop n s), all_digits_append in H.
  now apply andb_true_iff in H.
Qed.

Lemma checkValue_in_range (v : Z) :
  - 2 ^ 511 <= v < 2 ^ 511 -> Ethers.checkValue v 512 = Ok v.
Proof.
  intros H. unfold Ethers.checkValue.
  change (2 ^ (Z.of_nat 512 - 1)) with (2 ^ 511).
  destruct (Z.leb_spec (- 2 ^ 511) v); [| lia].
  destruct (Z.ltb_spec v (2 ^ 511)); [reflexivity | lia].
Qed.

Lemma getFormat_ok (decimals : nat) :
  (decimals <= 80)%nat -> Ethers.getFormat decimals 512 = Ok (decimals, 512%nat).
Proof.
  intros H. unfold Ethers.getFormat.
  change (negb (512 mod 8 =? 0)%nat) with false. cbv iota.
  destruct (Nat.ltb_spec 80 decimals); [lia | reflexivity].
Qed.

(** The integer [BigInt] reads from sign, whole part and fraction. *)
Lemma BigInt_signed_digits (negative : bool) (m2 kept : string) :
  all_digits m2 = true -> all_digits kept = true ->
  BigInt ((if negative then "-" else EmptyString)
          ++ match m2 with EmptyString => "0" | _ => m2 end ++ kept)
  = Ok (sign_of negative * digits_value (m2 ++ kept)).
Proof.
  intros Hw Hk.
  set (whole := match m2 with EmptyString => "0" | _ => m2 end).
  assert (Hd : all_digits (whole ++ kept) = true).
  { rewrite all_digits_append, Hk.
    subst whole. destruct m2; [reflexivity | now rewrite Hw]. }
  assert (Hne : whole ++ kept <> EmptyString).
  { subst whole. destruct m2; discriminate. }
  assert (Hv : digits_value (whole ++ kept) = digits_value (m2 ++ kept)).
  { subst whole. destruct m2; [| reflexivity].
    cbn [append]. rewrite digits_value_cons. reflexivity. }
  destruct negative; cbn [append sign_of].
  - rewrite BigInt_minus_digits, Hv by assumption. f_equal; lia.
  - rewrite BigInt_digits, Hv by assumption. f_equal; lia.
Qed.

(** [parseUnits] is exact: whenever [amount * 10^unit] is an integer
    [units] inside the 512-bit range and [unit] is at most 80, that
    integer is what it returns. The amount is [sign * digits(whole ++
    frac) / 10^|frac|], so the product is stated without division. *)
Lemma parseUnits_exact (negative point : bool) (whole frac : string) (unit : nat) (units : Z) :
  all_digits whole = true -> all_digits frac = true ->
  (0 < String.length whole + String.length frac)%nat ->
  (point = false -> frac = EmptyString) ->
  (unit <= 80)%nat ->
  units * 10 ^ Z.of_nat (String.length frac)
    = sign_of negative * digits_value (whole ++ frac) * 10 ^ Z.of_nat unit ->
  - 2 ^ 511 <= units < 2 ^ 511 ->
  Ethers.parseUnits (decimal_text negative whole point frac) unit = Ok units.
Proof.
  intros Hw Hf Hlen Hp Hu Hexact Hrange.
  unfold Ethers.parseUnits, Ethers.fromString.
  rewrite match_fixed_decimal_text by assumption.
  destruct (Nat.eqb_spec (String.length whole + String.length frac) 0); [lia |].
  rewrite getFormat_ok by assumption. cbn [result_bind].
  set (decimal := frac ++ Ethers.zeros (unit - String.length frac)).
  assert (Hdec : all_digits decimal = true).
  { subst decimal. now rewrite all_digits_append, Hf, all_digits_zeros. }
  destruct (all_digits_take_drop unit decimal Hdec) as [Hkept Hextra].
  assert (Hsplit : digits_value (whole ++ decimal)
                   = digits_value (whole ++ Ethers.take unit decimal)
                     * 10 ^ Z.of_nat (String.length (Ethers.drop unit decimal))
                     + digits_value (Ethers.drop unit decimal)).
  { rewrite <- (take_drop unit decimal) at 1.
    now rewrite <- append_assoc, digits_value_append. }
  assert (Hpad : digits_value (whole ++ decimal)
                 = digits_value (whole ++ frac)
                   * 10 ^ Z.of_nat (unit - String.length frac)).
  { subst decimal.
    rewrite <- append_assoc, digits_value_append, digits_value_zeros, length_zeros. lia. }
  pose proof (digits_value_bounds _ Hextra) as Hb.
  rewrite length_drop in Hsplit, Hb.
  assert (Hlen_dec : String.length decimal
                     = (String.length frac + (unit - String.length frac))%nat).
  { subst decimal. now rewrite length_append, length_zeros. }
  rewrite Hlen_dec in Hsplit, Hb.
  set (A := digits_value (whole ++ Ethers.take unit decimal)) in *.
  set (e := digits_value (Ethers.drop unit decimal)) in *.
  set (N := digits_value (whole ++ frac)) in *.
  set (s := sign_of negative) in *.
  assert (Hs : s = 1 \/ s = -1) by (subst s; destruct negative; cbn; lia).
  assert (He : e = 0 /\ units = s * A).
  { destruct (Nat.le_gt_cases (String.length frac) unit) as [Hle|Hgt].
    - replace (String.length frac + (unit - String.length frac) - unit)%nat
        with 0%nat in * by lia.
      change (10 ^ Z.of_nat 0) with 1 in *.
      assert (e = 0) by lia. split; [assumption |].
      replace (Z.of_nat unit)
        with (Z.of_nat (unit - String.length frac) + Z.of_nat (String.length frac))
        in Hexact by lia.
      rewrite Z.pow_add_r in Hexact by lia.
      assert (0 < 10 ^ Z.of_nat (String.length frac)) by (apply Z.pow_pos_nonneg; lia).
      remember (10 ^ Z.of_nat (String.length frac)) as q eqn:Eq.
      remember (10 ^ Z.of_nat (unit - String.length frac)) as p eqn:Ep.
      clear Eq Ep. nia.
    - replace (unit - String.length frac)%nat with 0%nat in * by lia.
      change (10 ^ Z.of_nat 0) with 1 in *.
      replace (String.length frac + 0 - unit)%nat
        with (String.length frac - unit)%nat in * by lia.
      replace (Z.of_nat (String.length frac))
        with (Z.of_nat (String.length frac - unit) + Z.of_nat unit)
        in Hexact by lia.
      rewrite Z.pow_add_r in Hexact by lia.
      assert (0 < 10 ^ Z.of_nat unit) by (apply Z.pow_pos_nonneg; lia).
      remember (10 ^ Z.of_nat (String.length frac - unit)) as p eqn:Ep.
      remember (10 ^ Z.of_nat unit) as q eqn:Eq.
      clear Eq Ep.
      assert (Hk : units * p = s * (A * p + e)) by nia.
      assert (Ht : (units - s * A) * p = s * e) by lia.
      assert (units - s * A = 0) by nia.
      split; [nia | lia]. }
  destruct He as [He0 Hunits].
  rewrite (digits_value_zero_all_zeros _ Hextra He0). cbn [negb].
  rewrite BigInt_signed_digits by assumption. cbn [result_bind].
  fold A. fold s. rewrite <- Hunits.
  now apply checkValue_in_range.
Qed.

(** *** Amounts too fine for the precision *)

Lemma all_zeros_drop_padded (n : nat) (s : string) :
  Ethers.all_zeros (Ethers.drop n (s ++ Ethers.zeros (n - String.length s)))
  = Ethers.all_zeros (Ethers.drop n s).
Proof.
  destruct (Nat.le_gt_cases (String.length s) n) as [Hle|Hgt].
  - rewrite !drop_all; [reflexivity | lia |].
    rewrite length_append, length_zeros. lia.
  - replace (n - String.length s)%nat with 0%nat by lia.
    cbn [Ethers.zeros]. now rewrite append_nil_r.
Qed.

Lemma all_zeros_drop_S (n : nat) (s : string) :
  Ethers.all_zeros (Ethers.drop n s) = true ->
  Ethers.all_zeros (Ethers.drop (S n) s) = true.
Proof.
  revert s. induction n as [|n IH]; intros s H.
  - destruct s as [|c s]; [reflexivity |].
    cbn in H |- *. now apply andb_true_iff in H.
  - destruct s as [|c s]; [reflexivity |].
    cbn [Ethers.drop] in H |- *. now apply IH.
Qed.

Lemma all_zeros_drop_le (n m : nat) (s : string) :
  (n <= m)%nat ->
  Ethers.all_zeros (Ethers.drop n s) = true ->
  Ethers.all_zeros (Ethers.drop m s) = true.
Proof.
  induction 1 as [|m Hle IH]; intros H; [exact H |].
  apply all_zeros_drop_S, IH, H.
Qed.

(** An amount the parser finds too fine at some precision of 6 or more
    is too fine at 6 decimals as well. *)
Lemma parseUnits_too_fine_at_six (amount : string) (unit : nat) :
  (6 <= unit)%nat ->
  Ethers.parseUnits amount unit = Throw (Error "too many decimals for format") ->
  Ethers.parseUnits amount 6 = Throw (Error "too many decimals for format").
Proof.
  intros Hsix. unfold Ethers.parseUnits, Ethers.fromString.
  destruct (Ethers.match_fixed amount) as [[[sign m2] m3]|]; [| discriminate].
  destruct (String.length m2 + String.length m3 =? 0)%nat; [discriminate |].
  unfold Ethers.getFormat. change (negb (512 mod 8 =? 0)%nat) with false. cbv iota.
  destruct (80 <? unit)%nat; [discriminate |].
  change (80 <? 6)%nat with false. cbn [result_bind].
  rewrite !all_zeros_drop_padded.
  destruct (Ethers.all_zeros (Ethers.drop unit m3)) eqn:Hfine; cbn [negb].
  - intros H. exfalso. revert H.
    destruct (BigInt _) as [v|[msg]] eqn:Hbig; cbn [result_bind].
    + unfold Ethers.checkValue. destruct (_ && _); discriminate.
    + unfold BigInt in Hbig.
      destruct (sign ++ _) as [|c rest]; [discriminate |].
      destruct (Ascii.eqb c "-"); [destruct (_ && _) | destruct (all_digits _)];
        inversion Hbig; discriminate.
  - intros _.
    destruct (Ethers.all_zeros (Ethers.drop 6 m3)) eqn:Hsix'; [| reflexivity].
    rewrite (all_zeros_drop_le 6 unit m3 Hsix Hsix') in Hfine. discriminate.
Qed.

End Parsing.

(** ** Running computations *)

Section Running.

Context {W : Type}.

Lemma bind_ok {A B : Type} (m : Run W A) (k : A -> Run W B) st st' a :
  m st = (st', Ok a) -> bind m k st = k a st'.
Proof. intros H. unfold bind. now rewrite H. Qed.

Lemma bind_throw {A B : Type} (m : Run W A) (k : A -> Run W B) st st' e :
  m st = (st', Throw e) -> bind m k st = (st', Throw e).
Proof. intros H. unfold bind. now rewrite H. Qed.

Lemma bind_inv {A B : Type} (m : Run W A) (k : A -> Run W B) st st2 r :
  bind m k st = (st2, r) ->
  (exists st1 a, m st = (st1, Ok a) /\ k a st1 = (st2, r))
  \/ (exists e, m st = (st2, Throw e) /\ r = Throw e).
Proof.
  unfold bind. destruct (m st) as [st1 [a|e]]; intros H.
  - left. now exists st1, a.
  - right. exists e. now inversion H.
Qed.

Lemma try_catch_ok {A : Type} (m : Run W A) (h : exn -> Run W A) st st' a :
  m st = (st', Ok a) -> try_catch m h st = (st', Ok a).
Proof. intros H. unfold try_catch. now rewrite H. Qed.

Lemma try_catch_throw {A : Type} (m : Run W A) (h : exn -> Run W A) st st' e :
  m st = (st', Throw e) -> try_catch m h st = h e st'.
Proof. intros H. unfold try_catch. now rewrite H. Qed.

Lemma try_catch_inv {A : Type} (m : Run W A) (h : exn -> Run W A) st st2 r :
  try_catch m h st = (st2, r) ->
  (exists a, m st = (st2, Ok a) /\ r = Ok a)
  \/ (exists st1 e, m st = (st1, Throw e) /\ h e st1 = (st2, r)).
Proof.
  unfold try_catch. destruct (m st) as [st1 [a|e]]; intros H.
  - left. exists a. now inversion H.
  - right. now exists st1, e.
Qed.

(** A handler that logs and rethrows never turns a failure into a result. *)
Lemma rethrow_inv {A : Type} (m : Run W A) (line : string) st st2 (a : A) :
  try_catch m (fun error => console_error line error ;; throw error) st = (st2, Ok a) ->
  m st = (st2, Ok a).
Proof.
  intros H. apply try_catch_inv in H. destruct H as [(a' & H & E) | (st1 & e & _ & H)].
  - now inversion E; subst.
  - discriminate H.
Qed.

Lemma rethrow_throw {A : Type} (m : Run W A) (line : string) st st1 e :
  m st = (st1, Throw e) ->
  try_catch m (fun error => console_error line error ;; throw error) st
  = (mkState (world st1) (trace st1 ++ [ConsoleError line e]), Throw e).
Proof.
  intros H. unfold try_catch. now rewrite H.
Qed.

(** *** Computations that submit nothing *)

Lemma silent_ret {A : Type} (a : A) : silent (W := W) (ret a).
Proof. intros st st' r H. now inversion H. Qed.

Lemma silent_throw {A : Type} (e : exn) : silent (W := W) (A := A) (throw e).
Proof. intros st st' r H. now inversion H. Qed.

Lemma silent_lift {A : Type} (x : Result A) : silent (W := W) (lift x).
Proof. intros st st' r H. now inversion H. Qed.

Lemma silent_bind {A B : Type} (m : Run W A) (k : A -> Run W B) :
  silent m -> (forall a, silent (k a)) -> silent (bind m k).
Proof.
  intros Hm Hk st st2 r H. apply bind_inv in H.
  destruct H as [(st1 & a & H1 & H2) | (e & H1 & _)].
  - rewrite (Hk a _ _ _ H2). exact (Hm _ _ _ H1).
  - exact (Hm _ _ _ H1).
Qed.

Lemma silent_try_catch {A : Type} (m : Run W A) (h : exn -> Run W A) :
  silent m -> (forall e, silent (h e)) -> silent (try_catch m h).
Proof.
  intros Hm Hh st st2 r H. apply try_catch_inv in H.
  destruct H as [(a & H1 & _) | (st1 & e & H1 & H2)].
  - exact (Hm _ _ _ H1).
  - rewrite (Hh e _ _ _ H2). exact (Hm _ _ _ H1).
Qed.

Lemma silent_emit (e : Effect) : is_submission e = false -> silent (W := W) (emit e).
Proof.
  intros He st st' r H. inversion H; subst. cbn [trace].
  unfold submissions. rewrite filter_app. cbn [filter]. rewrite He.
  apply List.app_nil_r.
Qed.

Lemma silent_console_log (line : string) : silent (console_log (W := W) line).
Proof. now apply silent_emit. Qed.

Lemma silent_console_error (line : string) (e : exn) :
  silent (console_error (W := W) line e).
Proof. now apply silent_emit. Qed.

Lemma silent_ask {A : Type} (f : W -> W * Result A) : silent (ask f).
Proof.
  intros st st' r H. unfold ask in H. destruct (f (world st)).
  now inversion H.
Qed.

Lemma silent_defined {A : Type} (field : option A) (msg : string) :
  silent (defined (W := W) field msg).
Proof. destruct field; [apply silent_ret | apply silent_throw]. Qed.

End Running.

Create HintDb silent.
#[export] Hint Resolve silent_ret silent_throw silent_lift silent_console_log
  silent_console_error silent_ask silent_defined : silent.

Ltac silence :=
  repeat first
    [ solve [auto with silent]
    | apply silent_bind
    | apply silent_try_catch
    | match goal with
      | |- forall _, _ => intro
      | |- silent (if ?b then _ else _) => destruct b
      | |- silent (match ?x with _ => _ end) => destruct x
      end ].

Section Guard.

Context {W : Type}.
Variable env : Env W.

Lemma silent_getTokenAmount (amount token : string) :
  silent (getTokenAmount env amount token).
Proof. unfold getTokenAmount, decimals. silence. Qed.

Lemma silent_balanceOf (contract : option Contract) (addr : string) :
  silent (balanceOf env contract addr).
Proof. unfold balanceOf. silence. Qed.

Lemma silent_hasEnoughUSDC (self : SonicSmartWallet) (amount : string) :
  silent (hasEnoughUSDC env self amount).
Proof.
  unfold hasEnoughUSDC.
  pose proof silent_getTokenAmount. pose proof silent_balanceOf.
  silence.
Qed.

End Guard.

(** ** Unit converter *)

Section Converter.

Context {W : Type}.
Variable env : Env W.

Lemma getTokenAmount_read_ok (amount token : string) (st : State W) w1 precision units :
  env_decimals env (getContract token) (world st) = (w1, Ok precision) ->
  Ethers.parseUnits amount precision = Ok units ->
  getTokenAmount env amount token st = (mkState w1 (trace st), Ok (toString units)).
Proof.
  intros Hread Hparse.
  unfold getTokenAmount, try_catch, bind, decimals, ask, lift, ret.
  rewrite Hread, Hparse. reflexivity.
Qed.

Lemma getTokenAmount_read_ok_parse_fails (amount token : string) (st : State W)
    w1 precision e :
  env_decimals env (getContract token) (world st) = (w1, Ok precision) ->
  Ethers.parseUnits amount precision = Throw e ->
  getTokenAmount env amount token st
  = let st1 := mkState w1 (trace st
                           ++ [ConsoleError "Error converting token amount:" e]
                           ++ [ConsoleLog "Falling back to 6 decimals for USDC"]) in
    (st1, match Ethers.parseUnits amount 6 with
          | Ok units => Ok (toString units)
          | Throw e' => Throw e'
          end).
Proof.
  intros Hread Hparse.
  unfold getTokenAmount, try_catch, bind, decimals, ask, lift, ret,
    console_error, console_log, emit.
  rewrite Hread, Hparse. cbn [world trace].
  rewrite <- app_assoc.
  destruct (Ethers.parseUnits amount 6); reflexivity.
Qed.

(** Whatever route it takes, a successful conversion returns the
    decimal rendering of an integer. *)
Lemma getTokenAmount_returns_toString (amount token : string) (st st' : State W) r :
  getTokenAmount env amount token st = (st', Ok r) -> exists units, r = toString units.
Proof.
  unfold getTokenAmount, try_catch, bind, decimals, ask, lift, ret,
    console_error, console_log, emit.
  destruct (env_decimals env (getContract token) (world st)) as [w1 [p|e]].
  - destruct (Ethers.parseUnits amount p) as [u|e].
    + intros H. inversion H. now exists u.
    + cbn [world trace]. destruct (Ethers.parseUnits amount 6) as [u|e'].
      * intros H. inversion H. now exists u.
      * discriminate.
  - cbn [world trace]. destruct (Ethers.parseUnits amount 6) as [u|e'].
    + intros H. inversion H. now exists u.
    + discriminate.
Qed.

(** The rejecting paths: after a failed read, or after a read of 6 or
    more, an amount too fine for the precision makes the conversion throw. *)
Lemma getTokenAmount_read_fails (amount token : string) (st : State W) w1 e :
  env_decimals env (getContract token) (world st) = (w1, Throw e) ->
  snd (getTokenAmount env amount token st)
  = match Ethers.parseUnits amount 6 with
    | Ok units => Ok (toString units)
    | Throw e' => Throw e'
    end.
Proof.
  intros Hread.
  unfold getTokenAmount, try_catch, bind, decimals, ask, lift, ret,
    console_error, console_log, emit.
  rewrite Hread. cbn [world trace].
  destruct (Ethers.parseUnits amount 6); reflexivity.
Qed.

Lemma getTokenAmount_rejects_too_fine (amount token : string) (st : State W) w1 precision :
  env_decimals env (getContract token) (world st) = (w1, Ok precision) ->
  (6 <= precision)%nat ->
  Ethers.parseUnits amount precision = Throw (Error "too many decimals for format") ->
  snd (getTokenAmount env amount token st) = Throw (Error "too many decimals for format").
Proof.
  intros Hread Hsix Hfine.
  rewrite (getTokenAmount_read_ok_parse_fails amount token st w1 precision _ Hread Hfine).
  cbv zeta. cbn [snd].
  now rewrite (parseUnits_too_fine_at_six amount precision Hsix Hfine).
Qed.

End Converter.



(** Precisions 6, 8 and 18, with a trailing zero and with as many
    fraction digits as the precision allows. *)
Example getTokenAmount_6_trailing_zero :
  snd (getTokenAmount (Sample.chain (Ok 6%nat) 0 0) "1.10" CONTRACT_ADDRESSES.USDC_TOKEN
         Sample.start)
  = Ok "1100000".
Proof. reflexivity. Qed.

Example getTokenAmount_6_maximal :
  snd (getTokenAmount (Sample.chain (Ok 6%nat) 0 0) "0.000001" CONTRACT_ADDRESSES.USDC_TOKEN
         Sample.start)
  = Ok "1".
Proof. reflexivity. Qed.

Example getTokenAmount_8_maximal :
  snd (getTokenAmount (Sample.chain (Ok 8%nat) 0 0) "21000000.12345678"
         CONTRACT_ADDRESSES.USDC_TOKEN Sample.start)
  = Ok "2100000012345678".
Proof. reflexivity. Qed.

Example getTokenAmount_18_maximal :
  snd (getTokenAmount (Sample.chain (Ok 18%nat) 0 0) "1.000000000000000001"
         CONTRACT_ADDRESSES.USDC_TOKEN Sample.start)
  = Ok "1000000000000000001".
Proof. reflexivity. Qed.

(** C4 (behaviour of the code where the claim fails). When the precision
    read succeeds but the amount is too fine for that precision, the
    parser's rejection is caught by the same handler that serves a failed
    read: the amount is parsed again at 6 decimals, and if that succeeds
    the caller receives the amount scaled by 10^6 instead of an error. *)
Theorem getTokenAmount_rescales_instead_of_rejecting {W : Type} (env : Env W)
    (st : State W) (w1 : W) (amount token : string) (precision : nat)
    (e : exn) (units : Z) :
  env_decimals env (getContract token) (world st) = (w1, Ok precision) ->
  Ethers.parseUnits amount precision = Throw e ->
  Ethers.parseUnits amount 6 = Ok units ->
  getTokenAmount env amount token st
  = (mkState w1 (trace st
                 ++ [ConsoleError "Error converting token amount:" e]
                 ++ [ConsoleLog "Falling back to 6 decimals for USDC"]),
     Ok (toString units)).
Proof.
  intros Hread Hfail Hsix.
  rewrite (getTokenAmount_read_ok_parse_fails env amount token st w1 precision e Hread Hfail).
  cbv zeta. now rewrite Hsix.
Qed.

Lemma getTokenAmount_rescales_instead_of_rejecting_witness :
  getTokenAmount (Sample.chain (Ok 2%nat) 0 0) "1.234" CONTRACT_ADDRESSES.USDC_TOKEN
    Sample.start
  = (mkState tt [ConsoleError "Error converting token amount:"
                   (Error "too many decimals for format");
                 ConsoleLog "Falling back to 6 decimals for USDC"],
     Ok "1234000").
Proof.
  apply (getTokenAmount_rescales_instead_of_rejecting (Sample.chain (Ok 2%nat) 0 0)
           Sample.start tt "1.234" CONTRACT_ADDRESSES.USDC_TOKEN 2
           (Error "too many decimals for format") 1234000).
  - reflexivity.
  - reflexivity.
  - reflexivity.
Defined.

(** ** Balance guard *)

Lemma formatUnits_toString (balance : Z) :
  0 <= balance < 2 ^ 511 ->
  Ethers.formatUnits (toString balance) 6 = Ok (Ethers.fixed_toString balance 6).
Proof.
  intros H. unfold Ethers.formatUnits.
  assert (Hbig : Ethers.getBigInt (toString balance) = Ok balance).
  { destruct (toString_nonneg_digits balance) as [Hd Hne]; [lia |].
    unfold Ethers.getBigInt.
    destruct (toString balance) as [|c rest] eqn:E; [congruence |].
    cbn [all_digits] in Hd. apply andb_true_iff in Hd. destruct Hd as [Hc _].
    rewrite (digit_not_minus c Hc). cbn [andb].
    rewrite <- E. apply BigInt_toString. }
  rewrite Hbig. cbn [result_bind].
  rewrite getFormat_ok by lia. cbn [result_bind].
  rewrite checkValue_in_range by lia. reflexivity.
Qed.

Section BalanceGuard.

Context {W : Type}.
Variable env : Env W.

(** What the guard does once the conversion and the balance read have
    both answered. *)
Lemma hasEnoughUSDC_eval (self : SonicSmartWallet) (amount : string) (st st1 : State W)
    (account : Account) (usdc : Contract) (need balance : Z) (w2 : W) :
  guard_ready self account usdc ->
  getTokenAmount env amount CONTRACT_ADDRESSES.USDC_TOKEN st = (st1, Ok (toString need)) ->
  env_balanceOf env usdc (address account) (world st1) = (w2, Ok balance) ->
  0 <= balance < 2 ^ 256 ->
  hasEnoughUSDC env self amount st
  = (mkState w2 (if balance >=? need
                 then trace st1
                 else trace st1 ++ [ConsoleLog (insufficient_line amount balance)]),
     Ok (balance >=? need)).
Proof.
  intros (instance & Hi & Ha & Hu) Hconv Hbal Hrange.
  unfold hasEnoughUSDC. rewrite Hi, Hu.
  unfold try_catch, bind at 1. rewrite Ha. cbn [defined ret].
  unfold bind at 1. rewrite Hconv.
  unfold bind at 1. unfold balanceOf, ask. rewrite Hbal.
  unfold bind, lift. cbn [world trace].
  rewrite !BigInt_toString.
  destruct (balance >=? need); cbn [negb].
  - reflexivity.
  - rewrite formatUnits_toString.
    + reflexivity.
    + assert (2 ^ 256 < 2 ^ 511) by (apply Z.pow_lt_mono_r; lia). lia.
Qed.

End BalanceGuard.

(** C5. With the wallet connected, whenever the conversion of [amount]
    succeeds with the string [required] and the balance read answers
    [balance] (an unsigned 256-bit integer), [required] is the rendering
    of an integer [need] and the guard returns exactly the outcome of
    the integer comparison [balance >= need]: false when the balance is
    strictly smaller, true otherwise. *)
Theorem hasEnoughUSDC_compares_integers {W : Type} (env : Env W)
    (self : SonicSmartWallet) (amount required : string) (st st1 : State W)
    (account : Account) (usdc : Contract) (balance : Z) (w2 : W) :
  guard_ready self account usdc ->
  getTokenAmount env amount CONTRACT_ADDRESSES.USDC_TOKEN st = (st1, Ok required) ->
  env_balanceOf env usdc (address account) (world st1) = (w2, Ok balance) ->
  0 <= balance < 2 ^ 256 ->
  exists need,
    required = toString need
    /\ snd (hasEnoughUSDC env self amount st) = Ok (balance >=? need)
    /\ (balance < need -> snd (hasEnoughUSDC env self amount st) = Ok false)
    /\ (need <= balance -> snd (hasEnoughUSDC env self amount st) = Ok true).
Proof.
  intros Hready Hconv Hbal Hrange.
  destruct (getTokenAmount_returns_toString env _ _ _ _ _ Hconv) as [need ->].
  exists need.
  rewrite (hasEnoughUSDC_eval env self amount st st1 account usdc need balance w2)
    by assumption.
  cbn [snd]. repeat split.
  - intros Hlt. f_equal. rewrite Z.geb_leb. apply Z.leb_gt. exact Hlt.
  - intros Hle. f_equal. rewrite Z.geb_leb. apply Z.leb_le. exact Hle.
Qed.

Lemma sample_guard_ready :
  guard_ready Sample.wallet Sample.account (getContract CONTRACT_ADDRESSES.USDC_TOKEN).
Proof.
  exists (mkSmartWallet (Some Sample.account)). repeat split.
Defined.

Lemma uint256_range (b : Z) : (0 <=? b) && (b <? 2 ^ 256) = true -> 0 <= b < 2 ^ 256.
Proof.
  intros H. apply andb_true_iff in H. destruct H as [H1 H2].
  apply Z.leb_le in H1. apply Z.ltb_lt in H2. now split.
Defined.

Lemma hasEnoughUSDC_compares_integers_witness :
  exists need,
    "1000000" = toString need
    /\ snd (hasEnoughUSDC (Sample.chain (Ok 6%nat) 999999 0) Sample.wallet "1" Sample.start)
       = Ok (999999 >=? need)
    /\ (999999 < need ->
        snd (hasEnoughUSDC (Sample.chain (Ok 6%nat) 999999 0) Sample.wallet "1" Sample.start)
        = Ok false)
    /\ (need <= 999999 ->
        snd (hasEnoughUSDC (Sample.chain (Ok 6%nat) 999999 0) Sample.wallet "1" Sample.start)
        = Ok true).
Proof.
  apply (hasEnoughUSDC_compares_integers (Sample.chain (Ok 6%nat) 999999 0)
           Sample.wallet "1" "1000000" Sample.start Sample.start
           Sample.account (getContract CONTRACT_ADDRESSES.USDC_TOKEN) 999999 tt).
  - exact sample_guard_ready.
  - reflexivity.
  - reflexivity.
  - apply uint256_range. vm_compute. reflexivity.
Defined.

Example guard_999999_vs_1000000 :
  snd (hasEnoughUSDC (Sample.chain (Ok 6%nat) 999999 0) Sample.wallet "1" Sample.start)
  = Ok false.
Proof. reflexivity. Qed.

Example guard_1000000_vs_1000000 :
  snd (hasEnoughUSDC (Sample.chain (Ok 6%nat) 1000000 0) Sample.wallet "1" Sample.start)
  = Ok true.
Proof. reflexivity. Qed.

(** *** What the guard prints *)

(** C6 (counterexample). Amount 1 at 6 decimals needs 1000000 base units;
    with a balance of 250000 the guard fails, the shortfall is 0.75, and
    the only line printed names the requested amount and the available
    0.25: the shortfall appears nowhere in the output. *)
Lemma guard_does_not_report_shortfall :
  snd (hasEnoughUSDC (Sample.chain (Ok 6%nat) 250000 0) Sample.wallet "1" Sample.start)
  = Ok false
  /\ Ethers.formatUnits (toString (1000000 - 250000)) 6 = Ok "0.75"
  /\ ~ reports_shortfall (Sample.chain (Ok 6%nat) 250000 0) Sample.wallet "1"
         Sample.start 1000000 250000.
Proof.
  split; [reflexivity |]. split; [reflexivity |].
  intros (shortfall & Hfmt & e & line & Hin & Htext & Hsub).
  vm_compute in Hfmt. inversion Hfmt; subst shortfall. clear Hfmt.
  vm_compute in Hin. destruct Hin as [<- | []].
  cbn in Htext. inversion Htext; subst line.
  vm_compute in Hsub. discriminate Hsub.
Qed.

(** C6 (amended). Whenever the guard finds the balance strictly below the
    required amount it returns false after printing exactly one line,
    which gives the requested amount as the caller wrote it and the
    available balance in human units at 6 decimals; the difference
    between the two is not computed. *)
Theorem hasEnoughUSDC_reports_required_and_available {W : Type} (env : Env W)
    (self : SonicSmartWallet) (amount : string) (st st1 : State W)
    (account : Account) (usdc : Contract) (need balance : Z) (w2 : W) :
  guard_ready self account usdc ->
  getTokenAmount env amount CONTRACT_ADDRESSES.USDC_TOKEN st = (st1, Ok (toString need)) ->
  env_balanceOf env usdc (address account) (world st1) = (w2, Ok balance) ->
  0 <= balance < 2 ^ 256 ->
  balance < need ->
  hasEnoughUSDC env self amount st
  = (mkState w2
       (trace st1
        ++ [ConsoleLog ("Insufficient USDC balance. Required: " ++ amount
                        ++ " USDC, Available: " ++ Ethers.fixed_toString balance 6
                        ++ " USDC")]),
     Ok false).
Proof.
  intros Hready Hconv Hbal Hrange Hlt.
  rewrite (hasEnoughUSDC_eval env self amount st st1 account usdc need balance w2)
    by assumption.
  assert (E : (balance >=? need) = false) by (rewrite Z.geb_leb; now apply Z.leb_gt).
  rewrite E. reflexivity.
Qed.

Lemma hasEnoughUSDC_reports_required_and_available_witness :
  hasEnoughUSDC (Sample.chain (Ok 6%nat) 500000 0) Sample.wallet "1" Sample.start
  = (mkState tt
       [ConsoleLog "Insufficient USDC balance. Required: 1 USDC, Available: 0.5 USDC"],
     Ok false).
Proof.
  apply (hasEnoughUSDC_reports_required_and_available (Sample.chain (Ok 6%nat) 500000 0)
           Sample.wallet "1" Sample.start Sample.start
           Sample.account (getContract CONTRACT_ADDRESSES.USDC_TOKEN) 1000000 500000 tt).
  - exact sample_guard_ready.
  - reflexivity.
  - reflexivity.
  - apply uint256_range. vm_compute. reflexivity.
  - lia.
Defined.

(** ** The guard comes first *)

(** C7. Both capital-committing operations start with the balance guard.
    Whenever the guard returns false from a state, each operation run
    from that state does what the guard did, writes one line to the error
    console and throws its insufficient-funds error; the submissions of
    the resulting trace are those that were there before the call, so
    nothing was sent. *)
Theorem insufficient_balance_aborts_before_submission {W : Type} (env : Env W)
    (self : SonicSmartWallet) (amount : string) (st st' : State W) :
  hasEnoughUSDC env self amount st = (st', Ok false) ->
  (approveAndSupplyToAave env self amount st
   = (mkState (world st')
        (trace st' ++ [ConsoleError "Error in depositing to Aave:"
                         (Error "Insufficient USDC balance for Aave supply")]),
      Throw (Error "Insufficient USDC balance for Aave supply"))
   /\ submissions (trace (fst (approveAndSupplyToAave env self amount st)))
      = submissions (trace st))
  /\ (approveAndDepositToSilo env self amount st
      = (mkState (world st')
           (trace st' ++ [ConsoleError "Error in Function 3:"
                            (Error "Insufficient USDC balance for Silo deposit")]),
         Throw (Error "Insufficient USDC balance for Silo deposit"))
      /\ submissions (trace (fst (approveAndDepositToSilo env self amount st)))
         = submissions (trace st)).
Proof.
  intros Hguard.
  pose proof (silent_hasEnoughUSDC env self amount _ _ _ Hguard) as Hsilent.
  assert (Hsupply : approveAndSupplyToAave env self amount st
    = (mkState (world st')
         (trace st' ++ [ConsoleError "Error in depositing to Aave:"
                          (Error "Insufficient USDC balance for Aave supply")]),
       Throw (Error "Insufficient USDC balance for Aave supply"))).
  { unfold approveAndSupplyToAave. apply rethrow_throw.
    rewrite (bind_ok _ _ _ _ _ Hguard). reflexivity. }
  assert (Hdeposit : approveAndDepositToSilo env self amount st
    = (mkState (world st')
         (trace st' ++ [ConsoleError "Error in Function 3:"
                          (Error "Insufficient USDC balance for Silo deposit")]),
       Throw (Error "Insufficient USDC balance for Silo deposit"))).
  { unfold approveAndDepositToSilo. apply rethrow_throw.
    rewrite (bind_ok _ _ _ _ _ Hguard). reflexivity. }
  split; (split; [assumption |]).
  - rewrite Hsupply. cbn [fst trace]. unfold submissions in *.
    rewrite filter_app. cbn [filter is_submission]. now rewrite List.app_nil_r.
  - rewrite Hdeposit. cbn [fst trace]. unfold submissions in *.
    rewrite filter_app. cbn [filter is_submission]. now rewrite List.app_nil_r.
Qed.

Lemma insufficient_balance_aborts_before_submission_witness :
  (approveAndSupplyToAave (Sample.chain (Ok 6%nat) 500000 0) Sample.wallet "1" Sample.start
   = (mkState tt
        ([ConsoleLog "Insufficient USDC balance. Required: 1 USDC, Available: 0.5 USDC"]
         ++ [ConsoleError "Error in depositing to Aave:"
               (Error "Insufficient USDC balance for Aave supply")]),
      Throw (Error "Insufficient USDC balance for Aave supply"))
   /\ submissions
        (trace (fst (approveAndSupplyToAave (Sample.chain (Ok 6%nat) 500000 0)
                       Sample.wallet "1" Sample.start)))
      = submissions [])
  /\ (approveAndDepositToSilo (Sample.chain (Ok 6%nat) 500000 0) Sample.wallet "1" Sample.start
      = (mkState tt
           ([ConsoleLog "Insufficient USDC balance. Required: 1 USDC, Available: 0.5 USDC"]
            ++ [ConsoleError "Error in Function 3:"
                  (Error "Insufficient USDC balance for Silo deposit")]),
         Throw (Error "Insufficient USDC balance for Silo deposit"))
      /\ submissions
           (trace (fst (approveAndDepositToSilo (Sample.chain (Ok 6%nat) 500000 0)
                          Sample.wallet "1" Sample.start)))
         = submissions []).
Proof.
  apply (insufficient_balance_aborts_before_submission (Sample.chain (Ok 6%nat) 500000 0)
           Sample.wallet "1" Sample.start
           (mkState tt
              [ConsoleLog "Insufficient USDC balance. Required: 1 USDC, Available: 0.5 USDC"])).
  reflexivity.
Defined.

(** ** Withdrawing from Silo *)

Lemma submissions_app (a b : list Effect) :
  submissions (a ++ b) = (submissions a ++ submissions b)%list.
Proof. apply filter_app. Qed.

(** Reduce the submissions of a trace given as a chain of appends. *)
Ltac sent :=
  unfold submissions; rewrite ?filter_app; cbn [filter is_submission];
  rewrite ?List.app_nil_r, <- ?List.app_assoc; cbn [app].

(** C8. [withdrawFromSilo] has no amount parameter. On every successful
    run the wallet is connected to some account, the bUSDC balance read
    for that account answered some [balance], and the run submitted
    exactly one transaction: redeem with parameters (rendering of that
    whole balance, account address, account address, collateral tag). *)
Theorem withdrawFromSilo_redeems_full_balance {W : Type} (env : Env W)
    (self : SonicSmartWallet) (st st' : State W) (hash : string) :
  withdrawFromSilo env self st = (st', Ok hash) ->
  exists instance account busdc w1 balance,
    smartWalletInstance self = Some instance
    /\ getAccount instance = Some account
    /\ siloBusdContract self = Some busdc
    /\ env_balanceOf env busdc (address account) (world st) = (w1, Ok balance)
    /\ submissions (trace st')
       = (submissions (trace st)
          ++ [SendTransaction (redeem_call busdc balance account) account])%list.
Proof.
  intros H. unfold withdrawFromSilo in H. apply rethrow_inv in H.
  unfold defined, balanceOf, sendTransaction, console_log in H.
  unfold bind, ret, throw, ask, emit in H.
  destruct (smartWalletInstance self) as [instance|] eqn:Hi; [| discriminate H].
  destruct (siloContract self) as [silo|] eqn:Hs; [| discriminate H].
  destruct (getAccount instance) as [account|] eqn:Ha; [| discriminate H].
  destruct (siloBusdContract self) as [busdc|] eqn:Hb; [| discriminate H].
  destruct (env_balanceOf env busdc (address account) (world st))
    as [w1 [balance|e]] eqn:Hbal; [| discriminate H].
  cbn [world trace] in H.
  destruct (env_sendTransaction env _ account w1) as [w2 [h|e]] eqn:Hsend;
    [| discriminate H].
  cbn [world trace] in H. inversion H; subst. clear H.
  exists instance, account, busdc, w1, balance.
  repeat split; try assumption. cbn [trace]. now sent.
Qed.

Lemma withdrawFromSilo_redeems_full_balance_witness :
  exists instance account busdc w1 balance,
    smartWalletInstance Sample.wallet = Some instance
    /\ getAccount instance = Some account
    /\ siloBusdContract Sample.wallet = Some busdc
    /\ env_balanceOf (Sample.chain (Ok 6%nat) 0 1234567) busdc (address account)
         (world Sample.start) = (w1, Ok balance)
    /\ submissions
         (trace (mkState tt
                   [ConsoleLog "Shares balance:  1234567";
                    SendTransaction
                      (redeem_call (getContract CONTRACT_ADDRESSES.B_USDC_TOKEN)
                         1234567 Sample.account) Sample.account;
                    ConsoleLog "Withdraw from Silo completed: 0xfeed"]))
       = (submissions (trace Sample.start)
          ++ [SendTransaction (redeem_call busdc balance account) account])%list.
Proof.
  apply (withdrawFromSilo_redeems_full_balance (Sample.chain (Ok 6%nat) 0 1234567)
           Sample.wallet Sample.start _ "0xfeed").
  reflexivity.
Defined.

(** C10. With the wallet connected and the bUSDC balance read answering
    zero, [withdrawFromSilo] raises no error of its own: it submits the
    redeem call with shares 0, receiver and owner the account, and its
    outcome is whatever the submission answers. *)
Theorem withdrawFromSilo_zero_balance_still_redeems {W : Type} (env : Env W)
    (self : SonicSmartWallet) (st : State W)
    (instance : SmartWallet) (account : Account) (silo busdc : Contract) (w1 : W) :
  smartWalletInstance self = Some instance ->
  siloContract self = Some silo ->
  getAccount instance = Some account ->
  siloBusdContract self = Some busdc ->
  env_balanceOf env busdc (address account) (world st) = (w1, Ok 0) ->
  let redeem :=
    ContractCall (Some busdc) "redeem"
      [PString "0"; PString (address account); PString (address account);
       PString SILO_COLLATERAL] in
  submissions (trace (fst (withdrawFromSilo env self st)))
  = (submissions (trace st) ++ [SendTransaction redeem account])%list
  /\ match env_sendTransaction env redeem account w1 with
     | (_, Ok hash) => snd (withdrawFromSilo env self st) = Ok hash
     | (_, Throw e) => snd (withdrawFromSilo env self st) = Throw e
     end.
Proof.
  intros Hi Hs Ha Hb Hbal redeem.
  unfold withdrawFromSilo. rewrite Hi, Hs, Hb.
  unfold defined, balanceOf, sendTransaction, console_log, console_error.
  unfold try_catch, bind, ret, throw, ask, emit.
  rewrite Ha. cbn [world trace]. rewrite Hbal. cbn [world trace].
  change (toString 0) with "0". unfold prepareContractCall. fold redeem.
  destruct (env_sendTransaction env redeem account w1) as [w2 [hash|e]];
    cbn [world trace fst snd]; (split; [| reflexivity]); now sent.
Qed.

Lemma withdrawFromSilo_zero_balance_still_redeems_witness :
  let redeem :=
    ContractCall (Some (getContract CONTRACT_ADDRESSES.B_USDC_TOKEN)) "redeem"
      [PString "0"; PString "0xA11CE"; PString "0xA11CE"; PString SILO_COLLATERAL] in
  submissions
    (trace (fst (withdrawFromSilo (Sample.chain (Ok 6%nat) 1000000 0) Sample.wallet
                   Sample.start)))
  = (submissions (trace Sample.start) ++ [SendTransaction redeem Sample.account])%list
  /\ match env_sendTransaction (Sample.chain (Ok 6%nat) 1000000 0) redeem Sample.account tt with
     | (_, Ok hash) =>
       snd (withdrawFromSilo (Sample.chain (Ok 6%nat) 1000000 0) Sample.wallet Sample.start)
       = Ok hash
     | (_, Throw e) =>
       snd (withdrawFromSilo (Sample.chain (Ok 6%nat) 1000000 0) Sample.wallet Sample.start)
       = Throw e
     end.
Proof.
  apply (withdrawFromSilo_zero_balance_still_redeems (Sample.chain (Ok 6%nat) 1000000 0)
           Sample.wallet Sample.start (mkSmartWallet (Some Sample.account)) Sample.account
           (getContract CONTRACT_ADDRESSES.SILO)
           (getContract CONTRACT_ADDRESSES.B_USDC_TOKEN) tt);
    reflexivity.
Defined.

(** ** Depositing to Silo *)

Section SiloDeposit.

Context {W : Type}.
Variable env : Env W.

(** Once the guard has passed and the amount is converted, the batch is
    sent whatever the encoders did; only console lines separate the
    conversion from the submission. *)
Lemma approveAndDepositToSilo_sends (self : SonicSmartWallet) (amount : string)
    (st st1 st2 : State W) (instance : SmartWallet) (account : Account)
    (usdc silo : Contract) (amountDecimals : string) :
  smartWalletInstance self = Some instance ->
  usdcContract self = Some usdc ->
  siloContract self = Some silo ->
  getAccount instance = Some account ->
  hasEnoughUSDC env self amount st = (st1, Ok true) ->
  getTokenAmount env amount CONTRACT_ADDRESSES.USDC_TOKEN st1 = (st2, Ok amountDecimals) ->
  exists logs tail,
    trace (fst (approveAndDepositToSilo env self amount st))
    = (trace st2 ++ logs
       ++ [SendBatchTransaction (silo_deposit_batch env usdc silo amountDecimals) account]
       ++ tail)%list
    /\ submissions logs = []
    /\ submissions tail = [].
Proof.
  intros Hi Hu Hs Ha Hguard Hconv.
  unfold approveAndDepositToSilo.
  unfold try_catch. rewrite (bind_ok _ _ _ _ _ Hguard). cbn [negb].
  rewrite Hi, Hu, Hs. unfold defined.
  unfold bind at 1, ret at 1. unfold bind at 1, ret at 1. unfold bind at 1, ret at 1.
  rewrite Ha. unfold bind at 1, ret at 1.
  rewrite (bind_ok _ _ _ _ _ Hconv).
  unfold silo_deposit_batch, silo_multicall_items, calldata_or_empty.
  unfold generateTransferFromCalldata, generateApproveCalldata, generateDepositCalldata.
  unfold sendBatchTransaction, console_log, console_error, approve, prepareContractCall.
  unfold bind, ret, throw, ask, emit.
  destruct (env_encodeFunctionData env "transferFrom" _) as [c1|e1];
    destruct (env_encodeFunctionData env "approve" _) as [c2|e2];
    destruct (env_encodeFunctionData env "deposit" _) as [c3|e3];
    cbn [world trace app];
    match goal with
    | |- context [env_sendBatchTransaction env ?b ?a ?w] =>
      destruct (env_sendBatchTransaction env b a w) as [w3 [hash|e]]
    end;
    cbn [world trace fst];
    rewrite <- ?List.app_assoc; cbn [app];
    match goal with
    | |- exists logs tail, (trace st2 ++ ?rest)%list = _ /\ _ /\ _ =>
      match rest with
      | context [SendBatchTransaction ?b ?a :: ?t] =>
        match rest with
        | SendBatchTransaction _ _ :: _ => exists [], t
        | [?l1; SendBatchTransaction _ _; _] => exists [l1], t
        | [?l1; ?l2; SendBatchTransaction _ _; _] => exists [l1; l2], t
        | [?l1; ?l2; ?l3; SendBatchTransaction _ _; _] => exists [l1; l2; l3], t
        end
      end
    end;
    repeat split; reflexivity.
Qed.

End SiloDeposit.

(** Shape of a successful deposit, whatever the encoders did. Whenever
    [approveAndDepositToSilo] succeeds, the guard had passed,
    the amount was converted to some [amountDecimals], and the run
    submitted exactly one batch made of two steps: the ERC-20 approval of
    the Silo router for [amountDecimals], then [multicall] on the router
    whose single parameter is a list of exactly three entries, the
    outputs of the transferFrom, approve and deposit generators in that
    order (each the encoder's result on the fixed arguments, or the empty
    string if the encoder threw). *)
Theorem approveAndDepositToSilo_batch_shape {W : Type} (env : Env W)
    (self : SonicSmartWallet) (amount : string) (st st' : State W) (hash : string) :
  approveAndDepositToSilo env self amount st = (st', Ok hash) ->
  exists usdc silo account st1 st2 amountDecimals,
    usdcContract self = Some usdc
    /\ siloContract self = Some silo
    /\ hasEnoughUSDC env self amount st = (st1, Ok true)
    /\ getTokenAmount env amount CONTRACT_ADDRESSES.USDC_TOKEN st1 = (st2, Ok amountDecimals)
    /\ submissions (trace st')
       = (submissions (trace st)
          ++ [SendBatchTransaction
                [Erc20Approve usdc CONTRACT_ADDRESSES.SILO amountDecimals;
                 ContractCall (Some silo) "multicall"
                   [PArray
                      [calldata_or_empty env "transferFrom"
                         [CONTRACT_ADDRESSES.USDC_TOKEN; CONTRACT_ADDRESSES.SILO;
                          amountDecimals];
                       calldata_or_empty env "approve"
                         [CONTRACT_ADDRESSES.USDC_TOKEN; CONTRACT_ADDRESSES.B_USDC_TOKEN;
                          amountDecimals];
                       calldata_or_empty env "deposit"
                         [CONTRACT_ADDRESSES.B_USDC_TOKEN; amountDecimals;
                          SILO_COLLATERAL]]]]
                account])%list.
Proof.
  intros H. pose proof H as Hrun.
  unfold approveAndDepositToSilo in H. apply rethrow_inv in H.
  apply bind_inv in H. destruct H as [(st1 & b & Hguard & H) | (e & _ & E)];
    [| discriminate E].
  destruct b; cbn [negb] in H; [| discriminate H].
  unfold defined in H.
  destruct (smartWalletInstance self) as [instance|] eqn:Hi;
    [| unfold bind, throw, ret in H; discriminate H].
  destruct (usdcContract self) as [usdc|] eqn:Hu; [| unfold bind, throw, ret in H; discriminate H].
  destruct (siloContract self) as [silo|] eqn:Hs; [| unfold bind, throw, ret in H; discriminate H].
  unfold bind at 1, ret at 1 in H. unfold bind at 1, ret at 1 in H.
  unfold bind at 1, ret at 1 in H.
  destruct (getAccount instance) as [account|] eqn:Ha;
    [| unfold bind, throw, ret in H; discriminate H].
  unfold bind at 1, ret at 1 in H.
  apply bind_inv in H. destruct H as [(st2 & amountDecimals & Hconv & _) | (e & _ & E)];
    [| discriminate E].
  exists usdc, silo, account, st1, st2, amountDecimals.
  repeat split; try assumption.
  destruct (approveAndDepositToSilo_sends env self amount st st1 st2 instance account
              usdc silo amountDecimals Hi Hu Hs Ha Hguard Hconv)
    as (logs & tail & Htrace & Hlogs & Htail).
  rewrite Hrun in Htrace. cbn [fst] in Htrace. rewrite Htrace.
  rewrite !submissions_app, Hlogs, Htail.
  rewrite (silent_getTokenAmount env _ _ _ _ _ Hconv).
  rewrite (silent_hasEnoughUSDC env _ _ _ _ _ Hguard).
  cbn [app]. rewrite List.app_nil_r. reflexivity.
Qed.

Lemma approveAndDepositToSilo_batch_shape_witness :
  exists usdc silo account st1 st2 amountDecimals,
    usdcContract Sample.wallet = Some usdc
    /\ siloContract Sample.wallet = Some silo
    /\ hasEnoughUSDC (Sample.chain (Ok 6%nat) 2500000 0) Sample.wallet "1" Sample.start
       = (st1, Ok true)
    /\ getTokenAmount (Sample.chain (Ok 6%nat) 2500000 0) "1"
         CONTRACT_ADDRESSES.USDC_TOKEN st1 = (st2, Ok amountDecimals)
    /\ submissions
         (trace (fst (approveAndDepositToSilo (Sample.chain (Ok 6%nat) 2500000 0)
                        Sample.wallet "1" Sample.start)))
       = (submissions (trace Sample.start)
          ++ [SendBatchTransaction
                [Erc20Approve usdc CONTRACT_ADDRESSES.SILO amountDecimals;
                 ContractCall (Some silo) "multicall"
                   [PArray
                      [calldata_or_empty (Sample.chain (Ok 6%nat) 2500000 0) "transferFrom"
                         [CONTRACT_ADDRESSES.USDC_TOKEN; CONTRACT_ADDRESSES.SILO;
                          amountDecimals];
                       calldata_or_empty (Sample.chain (Ok 6%nat) 2500000 0) "approve"
                         [CONTRACT_ADDRESSES.USDC_TOKEN; CONTRACT_ADDRESSES.B_USDC_TOKEN;
                          amountDecimals];
                       calldata_or_empty (Sample.chain (Ok 6%nat) 2500000 0) "deposit"
                         [CONTRACT_ADDRESSES.B_USDC_TOKEN; amountDecimals;
                          SILO_COLLATERAL]]]]
                account])%list.
Proof.
  apply (approveAndDepositToSilo_batch_shape (Sample.chain (Ok 6%nat) 2500000 0)
           Sample.wallet "1" Sample.start _ "0xbeef").
  reflexivity.
Defined.

(** When the encoder succeeds on the three calls, the entries are the
    three encodings. *)
Lemma silo_multicall_items_encoded {W : Type} (env : Env W) (amountDecimals : string)
    (c1 c2 c3 : string) :
  env_encodeFunctionData env "transferFrom"
    [CONTRACT_ADDRESSES.USDC_TOKEN; CONTRACT_ADDRESSES.SILO; amountDecimals] = Ok c1 ->
  env_encodeFunctionData env "approve"
    [CONTRACT_ADDRESSES.USDC_TOKEN; CONTRACT_ADDRESSES.B_USDC_TOKEN; amountDecimals] = Ok c2 ->
  env_encodeFunctionData env "deposit"
    [CONTRACT_ADDRESSES.B_USDC_TOKEN; amountDecimals; SILO_COLLATERAL] = Ok c3 ->
  silo_multicall_items env amountDecimals = [c1; c2; c3].
Proof.
  intros H1 H2 H3. unfold silo_multicall_items, calldata_or_empty.
  now rewrite H1, H2, H3.
Qed.

(** C1 (behaviour of the code where the claim fails). With the wallet
    connected, the guard passed and the amount converted, an encoder
    failure on any of the three calls does not stop the operation: the
    batch is handed to [sendBatchTransaction] with the empty string
    standing in the multicall list for the call that failed to encode. *)
Theorem approveAndDepositToSilo_sends_empty_calldata {W : Type} (env : Env W)
    (self : SonicSmartWallet) (amount : string) (st st1 st2 : State W)
    (instance : SmartWallet) (account : Account) (usdc silo : Contract)
    (amountDecimals : string) (e : exn) :
  smartWalletInstance self = Some instance ->
  usdcContract self = Some usdc ->
  siloContract self = Some silo ->
  getAccount instance = Some account ->
  hasEnoughUSDC env self amount st = (st1, Ok true) ->
  getTokenAmount env amount CONTRACT_ADDRESSES.USDC_TOKEN st1 = (st2, Ok amountDecimals) ->
  (env_encodeFunctionData env "transferFrom"
     [CONTRACT_ADDRESSES.USDC_TOKEN; CONTRACT_ADDRESSES.SILO; amountDecimals] = Throw e
   \/ env_encodeFunctionData env "approve"
        [CONTRACT_ADDRESSES.USDC_TOKEN; CONTRACT_ADDRESSES.B_USDC_TOKEN; amountDecimals]
      = Throw e
   \/ env_encodeFunctionData env "deposit"
        [CONTRACT_ADDRESSES.B_USDC_TOKEN; amountDecimals; SILO_COLLATERAL] = Throw e) ->
  exists items,
    In EmptyString items
    /\ In (SendBatchTransaction
             [Erc20Approve usdc CONTRACT_ADDRESSES.SILO amountDecimals;
              ContractCall (Some silo) "multicall" [PArray items]]
             account)
          (trace (fst (approveAndDepositToSilo env self amount st))).
Proof.
  intros Hi Hu Hs Ha Hguard Hconv Hfail.
  exists (silo_multicall_items env amountDecimals). split.
  - unfold silo_multicall_items, calldata_or_empty.
    destruct Hfail as [H | [H | H]]; rewrite H; cbn; auto.
  - destruct (approveAndDepositToSilo_sends env self amount st st1 st2 instance account
                usdc silo amountDecimals Hi Hu Hs Ha Hguard Hconv)
      as (logs & tail & Htrace & _ & _).
    rewrite Htrace. apply in_or_app. right. apply in_or_app. right. now left.
Qed.

Lemma approveAndDepositToSilo_sends_empty_calldata_witness :
  exists items,
    In EmptyString items
    /\ In (SendBatchTransaction
             [Erc20Approve (getContract CONTRACT_ADDRESSES.USDC_TOKEN)
                CONTRACT_ADDRESSES.SILO "-1000000";
              ContractCall (Some (getContract CONTRACT_ADDRESSES.SILO)) "multicall"
                [PArray items]]
             Sample.account)
          (trace (fst (approveAndDepositToSilo (Sample.chain (Ok 6%nat) 5 0)
                         Sample.wallet "-1" Sample.start))).
Proof.
  apply (approveAndDepositToSilo_sends_empty_calldata (Sample.chain (Ok 6%nat) 5 0)
           Sample.wallet "-1" Sample.start Sample.start Sample.start
           (mkSmartWallet (Some Sample.account)) Sample.account
           (getContract CONTRACT_ADDRESSES.USDC_TOKEN)
           (getContract CONTRACT_ADDRESSES.SILO) "-1000000"
           (Error "value out-of-bounds"));
    try reflexivity.
  left. reflexivity.
Defined.

(** The run at amount -1 in full: three encoder failures are logged, the
    batch goes out with three empty entries and the call returns the
    transaction hash. *)
Example deposit_with_failed_encoders :
  approveAndDepositToSilo (Sample.chain (Ok 6%nat) 5 0) Sample.wallet "-1" Sample.start
  = (mkState tt
       [ConsoleError "Error generating approve calldata:" (Error "value out-of-bounds");
        ConsoleError "Error generating approve calldata:" (Error "value out-of-bounds");
        ConsoleError "Error generating deposit calldata:" (Error "value out-of-bounds");
        SendBatchTransaction
          [Erc20Approve (getContract CONTRACT_ADDRESSES.USDC_TOKEN)
             CONTRACT_ADDRESSES.SILO "-1000000";
           ContractCall (Some (getContract CONTRACT_ADDRESSES.SILO)) "multicall"
             [PArray [EmptyString; EmptyString; EmptyString]]]
          Sample.account;
        ConsoleLog "Deposit completed: 0xbeef"],
     Ok "0xbeef").
Proof. reflexivity. Qed.

Section SiloDepositOutcome.

Context {W : Type}.
Variable env : Env W.


End SiloDepositOutcome.



(** ** The rotation loop *)

Section Rotation.

Context {W : Type}.
Variable env : Env W.
Variable wallet : SonicSmartWallet.

Lemma bind_assoc {A B C : Type} (m : Run W A) (k : A -> Run W B) (h : B -> Run W C) st :
  bind (bind m k) h st = bind m (fun a => bind (k a) h) st.
Proof.
  unfold bind. destruct (m st) as [st1 [a|e]]; reflexivity.
Qed.

Lemma bind_ext {A B : Type} (m m' : Run W A) (k k' : A -> Run W B) st :
  (forall s, m s = m' s) -> (forall a s, k a s = k' a s) ->
  bind m k st = bind m' k' st.
Proof.
  intros Hm Hk. unfold bind. rewrite Hm.
  destruct (m' st) as [st1 [a|e]]; [apply Hk | reflexivity].
Qed.

Lemma run_script_app (a b : list Action) st :
  run_script env wallet (a ++ b) st
  = bind (run_script env wallet a) (fun _ => run_script env wallet b) st.
Proof.
  revert st. induction a as [|x a IH]; intros st.
  - reflexivity.
  - cbn [app run_script]. rewrite bind_assoc.
    apply bind_ext; [reflexivity | intros _ s; apply IH].
Qed.

(** Discarding a method's result changes nothing for what follows. *)
Lemma bind_discard {A B : Type} (m : Run W A) (k : Run W B) st :
  bind (bind m (fun _ => ret tt)) (fun _ => k) st = bind m (fun _ => k) st.
Proof.
  unfold bind, ret. destruct (m st) as [st1 [a|e]]; reflexivity.
Qed.

Lemma bind_ret_unit (m : Run W unit) st : bind m (fun _ => ret tt) st = m st.
Proof.
  unfold bind, ret. destruct (m st) as [st1 [[]|e]]; reflexivity.
Qed.

(** The loop body, statement by statement, is its script. *)
Lemma cycle_body_script (i : nat) st :
  cycle_body env wallet i st = run_script env wallet (cycle_script i) st.
Proof.
  unfold cycle_body, cycle_script.
  cbn [app run_script perform].
  apply bind_ext; [reflexivity | intros _ s1].
  rewrite run_script_app.
  apply bind_ext.
  { intros s. destruct (0 <? i)%nat; cbn [run_script perform invoke].
    - now rewrite bind_ret_unit.
    - reflexivity. }
  intros _ s2. cbn [app run_script perform invoke].
  apply bind_ext; [reflexivity | intros _ s3].
  rewrite bind_discard. apply bind_ext; [reflexivity | intros _ s4].
  apply bind_ext; [reflexivity | intros _ s5].
  apply bind_ext; [reflexivity | intros _ s6].
  apply bind_ext; [reflexivity | intros _ s7].
  rewrite bind_discard. apply bind_ext; [reflexivity | intros _ s8].
  apply bind_ext; [reflexivity | intros _ s9].
  apply bind_ext; [reflexivity | intros _ s10].
  rewrite bind_discard. apply bind_ext; [reflexivity | intros _ s11].
  destruct (i <? cycles - 1)%nat; cbn [run_script perform].
  - apply bind_ext; [reflexivity | intros _ s12]. now rewrite bind_ret_unit.
  - reflexivity.
Qed.

Lemma for_loop_script (count i : nat) st :
  for_loop count i (cycle_body env wallet) st
  = run_script env wallet (flat_map cycle_script (seq i count)) st.
Proof.
  revert i st. induction count as [|count IH]; intros i st.
  - reflexivity.
  - cbn [for_loop seq flat_map]. rewrite run_script_app.
    apply bind_ext; [apply cycle_body_script | intros _ s; apply IH].
Qed.

Lemma wallet_calls_app (a b : list Action) :
  wallet_calls (a ++ b) = (wallet_calls a ++ wallet_calls b)%list.
Proof. apply flat_map_app. Qed.

Lemma wallet_calls_cycle (i : nat) : wallet_calls (cycle_script i) = cycle_calls i.
Proof.
  unfold cycle_script, cycle_calls. rewrite !wallet_calls_app.
  destruct i as [|i].
  - reflexivity.
  - change (0 <? S i)%nat with true. change (S i =? 0)%nat with false.
    destruct (S i <? cycles - 1)%nat; reflexivity.
Qed.

Lemma wallet_calls_rotation :
  wallet_calls rotation_script = flat_map cycle_calls (seq 0 cycles).
Proof.
  unfold rotation_script. induction (seq 0 cycles) as [|i l IH].
  - reflexivity.
  - cbn [flat_map]. now rewrite wallet_calls_app, wallet_calls_cycle, IH.
Qed.

(** The calls entered during a run are an initial segment of the calls
    the script lists. *)
Lemma calls_made_prefix (script : list Action) st :
  exists rest, wallet_calls script = (calls_made env wallet script st ++ rest)%list.
Proof.
  revert st. induction script as [|a script IH]; intros st.
  - now exists [].
  - cbn [calls_made]. change (wallet_calls (a :: script))
      with (wallet_call a ++ wallet_calls script)%list.
    destruct (perform env wallet a st) as [st1 [[]|e]].
    + destruct (IH st1) as [rest Hrest]. exists rest.
      now rewrite Hrest, List.app_assoc.
    + exists (wallet_calls script). now rewrite List.app_nil_r.
Qed.

(** A run that does not throw enters them all. *)
Lemma calls_made_complete (script : list Action) st :
  snd (run_script env wallet script st) = Ok tt ->
  calls_made env wallet script st = wallet_calls script.
Proof.
  revert st. induction script as [|a script IH]; intros st H.
  - reflexivity.
  - cbn [calls_made run_script] in *. unfold bind in H.
    change (wallet_calls (a :: script))
      with (wallet_call a ++ wallet_calls script)%list.
    destruct (perform env wallet a st) as [st1 [[]|e]].
    + now rewrite (IH st1 H).
    + discriminate H.
Qed.

End Rotation.

(** [main] connects the wallet and then runs the rotation script. *)
Lemma main_runs_script {W : Type} (env : Env W) (fresh : SonicSmartWallet) (st : State W) :
  main env fresh st
  = try_catch
      (w <- initializeSmartWallet env fresh ;;
       run_script env w rotation_script ;;
       console_log (newline ++ " Fund rotation completed successfully!"))
      (fun err => console_error "Error during fund rotation:" err) st.
Proof.
  unfold main, try_catch.
  rewrite (bind_ext _ (initializeSmartWallet env fresh) _
             (fun w => run_script env w rotation_script ;;
                       console_log (newline ++ " Fund rotation completed successfully!")));
    [reflexivity | reflexivity |].
  intros w s. apply bind_ext; [| reflexivity].
  intros s'. apply for_loop_script.
Qed.

(** C9. The loop of [main] runs the rotation script, the scripts of cycles
    0, 1, ..., one after the other, each action starting only after the
    previous one returned and none after a throw. The wallet methods of
    cycle 0 are, in order, supply to Aave, withdraw from Aave, deposit to
    Silo, with no withdrawal from Silo; those of every later cycle are the
    withdrawal from Silo first, then the same three. The calls entered in
    any run form an initial segment of that sequence, and the whole
    sequence when nothing throws. *)
Theorem rotation_cycle_order {W : Type} (env : Env W) (wallet : SonicSmartWallet)
    (st : State W) :
  for_loop cycles 0 (cycle_body env wallet) st = run_script env wallet rotation_script st
  /\ wallet_calls rotation_script = flat_map cycle_calls (seq 0 cycles)
  /\ wallet_calls (cycle_script 0)
     = [CallApproveAndSupplyToAave AMOUNT; CallWithdrawFromAave AMOUNT;
        CallApproveAndDepositToSilo AMOUNT]
  /\ (forall i,
        wallet_calls (cycle_script (S i))
        = [CallWithdrawFromSilo; CallApproveAndSupplyToAave AMOUNT;
           CallWithdrawFromAave AMOUNT; CallApproveAndDepositToSilo AMOUNT])
  /\ (exists rest,
        wallet_calls rotation_script
        = (calls_made env wallet rotation_script st ++ rest)%list)
  /\ (snd (run_script env wallet rotation_script st) = Ok tt ->
      calls_made env wallet rotation_script st = wallet_calls rotation_script).
Proof.
  split; [apply for_loop_script |].
  split; [apply wallet_calls_rotation |].
  split; [now rewrite wallet_calls_cycle |].
  split; [intros i; now rewrite wallet_calls_cycle |].
  split; [apply calls_made_prefix | apply calls_made_complete].
Qed.

Lemma rotation_cycle_order_witness :
  calls_made (Sample.chain (Ok 6%nat) 2500000 0) Sample.wallet rotation_script Sample.start
  = wallet_calls rotation_script.
Proof.
  apply (rotation_cycle_order (Sample.chain (Ok 6%nat) 2500000 0) Sample.wallet Sample.start).
  vm_compute. reflexivity.
Defined.

(** * Further properties of the wallet *)

(** ** Aave: supply and withdraw *)

Section Aave.

Context {W : Type}.
Variable env : Env W.

(** Once the guard has passed and the amount is converted, the supply
    batch is handed over once and the outcome is the answer it gets. *)
Lemma approveAndSupplyToAave_eval (self : SonicSmartWallet) (amount : string)
    (st st1 st2 : State W) (instance : SmartWallet) (account : Account)
    (usdc aave : Contract) (amountDecimals : string) :
  smartWalletInstance self = Some instance ->
  usdcContract self = Some usdc ->
  aaveContract self = Some aave ->
  getAccount instance = Some account ->
  hasEnoughUSDC env self amount st = (st1, Ok true) ->
  getTokenAmount env amount CONTRACT_ADDRESSES.USDC_TOKEN st1 = (st2, Ok amountDecimals) ->
  approveAndSupplyToAave env self amount st
  = let batch := aave_supply_batch usdc aave amountDecimals account in
    match env_sendBatchTransaction env batch account (world st2) with
    | (w3, Ok hash) =>
      (mkState w3 (trace st2
                   ++ [SendBatchTransaction batch account;
                       ConsoleLog ("Deposit to AAVE completed: " ++ hash)]),
       Ok hash)
    | (w3, Throw e) =>
      (mkState w3 (trace st2
                   ++ [SendBatchTransaction batch account;
                       ConsoleError "Error in depositing to Aave:" e]),
       Throw e)
    end.
Proof.
  intros Hi Hu Hv Ha Hguard Hconv.
  unfold approveAndSupplyToAave.
  unfold try_catch. rewrite (bind_ok _ _ _ _ _ Hguard). cbn [negb].
  rewrite Hi, Hu, Hv. unfold defined.
  unfold bind at 1, ret at 1. unfold bind at 1, ret at 1. unfold bind at 1, ret at 1.
  rewrite Ha. unfold bind at 1, ret at 1.
  rewrite (bind_ok _ _ _ _ _ Hconv).
  unfold sendBatchTransaction, console_log, console_error, prepareContractCall,
    aave_supply_batch.
  unfold bind, ret, throw, ask, emit. cbn [world trace]. cbv zeta.
  destruct (env_sendBatchTransaction env _ account (world st2)) as [w3 [hash|e]];
    cbn [world trace]; rewrite <- !List.app_assoc; reflexivity.
Qed.

(** What a successful supply went through. *)
Lemma approveAndSupplyToAave_inv (self : SonicSmartWallet) (amount : string)
    (st st' : State W) (hash : string) :
  approveAndSupplyToAave env self amount st = (st', Ok hash) ->
  exists instance usdc aave account st1 st2 amountDecimals,
    smartWalletInstance self = Some instance
    /\ usdcContract self = Some usdc
    /\ aaveContract self = Some aave
    /\ getAccount instance = Some account
    /\ hasEnoughUSDC env self amount st = (st1, Ok true)
    /\ getTokenAmount env amount CONTRACT_ADDRESSES.USDC_TOKEN st1
       = (st2, Ok amountDecimals).
Proof.
  intros H. unfold approveAndSupplyToAave in H. apply rethrow_inv in H.
  apply bind_inv in H. destruct H as [(st1 & b & Hguard & H) | (e & _ & E)];
    [| discriminate E].
  destruct b; cbn [negb] in H; [| discriminate H].
  unfold defined in H.
  destruct (smartWalletInstance self) as [instance|] eqn:Hi;
    [| unfold bind, throw, ret in H; discriminate H].
  destruct (usdcContract self) as [usdc|] eqn:Hu;
    [| unfold bind, throw, ret in H; discriminate H].
  destruct (aaveContract self) as [aave|] eqn:Hv;
    [| unfold bind, throw, ret in H; discriminate H].
  unfold bind at 1, ret at 1 in H. unfold bind at 1, ret at 1 in H.
  unfold bind at 1, ret at 1 in H.
  destruct (getAccount instance) as [account|] eqn:Ha;
    [| unfold bind, throw, ret in H; discriminate H].
  unfold bind at 1, ret at 1 in H.
  apply bind_inv in H. destruct H as [(st2 & amountDecimals & Hconv & _) | (e & _ & E)];
    [| discriminate E].
  exists instance, usdc, aave, account, st1, st2, amountDecimals.
  repeat split; assumption.
Qed.

(** [withdrawFromAave] with the wallet connected and the amount converted. *)
Lemma withdrawFromAave_eval (self : SonicSmartWallet) (amount : string)
    (st st1 : State W) (instance : SmartWallet) (account : Account)
    (aave : Contract) (amountDecimals : string) :
  smartWalletInstance self = Some instance ->
  aaveContract self = Some aave ->
  getAccount instance = Some account ->
  getTokenAmount env amount CONTRACT_ADDRESSES.USDC_TOKEN st = (st1, Ok amountDecimals) ->
  withdrawFromAave env self amount st
  = let call := aave_withdraw_call aave amountDecimals account in
    match env_sendTransaction env call account (world st1) with
    | (w2, Ok hash) =>
      (mkState w2 (trace st1
                   ++ [SendTransaction call account;
                       ConsoleLog ("Withdraw from Aave completed: " ++ hash)]),
       Ok hash)
    | (w2, Throw e) =>
      (mkState w2 (trace st1
                   ++ [SendTransaction call account;
                       ConsoleError "Error in Function 2:" e]),
       Throw e)
    end.
Proof.
  intros Hi Hv Ha Hconv.
  unfold withdrawFromAave. rewrite Hi, Hv. unfold defined.
  unfold try_catch. unfold bind at 1, ret at 1. unfold bind at 1, ret at 1.
  rewrite Ha. unfold bind at 1, ret at 1.
  rewrite (bind_ok _ _ _ _ _ Hconv).
  unfold sendTransaction, console_log, console_error, prepareContractCall,
    aave_withdraw_call.
  unfold bind, ret, throw, ask, emit. cbn [world trace]. cbv zeta.
  destruct (env_sendTransaction env _ account (world st1)) as [w2 [hash|e]];
    cbn [world trace]; rewrite <- !List.app_assoc; reflexivity.
Qed.

Lemma withdrawFromAave_inv (self : SonicSmartWallet) (amount : string)
    (st st' : State W) (hash : string) :
  withdrawFromAave env self amount st = (st', Ok hash) ->
  exists instance aave account st1 amountDecimals,
    smartWalletInstance self = Some instance
    /\ aaveContract self = Some aave
    /\ getAccount instance = Some account
    /\ getTokenAmount env amount CONTRACT_ADDRESSES.USDC_TOKEN st
       = (st1, Ok amountDecimals).
Proof.
  intros H. unfold withdrawFromAave in H. apply rethrow_inv in H.
  unfold defined in H.
  destruct (smartWalletInstance self) as [instance|] eqn:Hi;
    [| unfold bind, throw, ret in H; discriminate H].
  destruct (aaveContract self) as [aave|] eqn:Hv;
    [| unfold bind, throw, ret in H; discriminate H].
  unfold bind at 1, ret at 1 in H. unfold bind at 1, ret at 1 in H.
  destruct (getAccount instance) as [account|] eqn:Ha;
    [| unfold bind, throw, ret in H; discriminate H].
  unfold bind at 1, ret at 1 in H.
  apply bind_inv in H. destruct H as [(st1 & amountDecimals & Hconv & _) | (e & _ & E)];
    [| discriminate E].
  exists instance, aave, account, st1, amountDecimals.
  repeat split; assumption.
Qed.

End Aave.

(** X1. Whenever [approveAndSupplyToAave] succeeds, the guard had passed,
    the amount was converted to some [amountDecimals], and after the
    conversion the run did exactly two things: it submitted one batch,
    approve(AAVE, amountDecimals) on USDC followed by
    supply(USDC, amountDecimals, account, 0) on the pool, and it printed
    the completion line with the hash the submission answered, which is
    also the value returned. *)
Theorem approveAndSupplyToAave_batch_shape {W : Type} (env : Env W)
    (self : SonicSmartWallet) (amount : string) (st st' : State W) (hash : string) :
  approveAndSupplyToAave env self amount st = (st', Ok hash) ->
  exists usdc aave account st1 st2 amountDecimals,
    usdcContract self = Some usdc
    /\ aaveContract self = Some aave
    /\ hasEnoughUSDC env self amount st = (st1, Ok true)
    /\ getTokenAmount env amount CONTRACT_ADDRESSES.USDC_TOKEN st1
       = (st2, Ok amountDecimals)
    /\ env_sendBatchTransaction env
         [ContractCall (Some usdc) "approve"
            [PString CONTRACT_ADDRESSES.AAVE; PString amountDecimals];
          ContractCall (Some aave) "supply"
            [PString CONTRACT_ADDRESSES.USDC_TOKEN; PString amountDecimals;
             PString (address account); PString "0"]]
         account (world st2)
       = (world st', Ok hash)
    /\ trace st'
       = (trace st2
          ++ [SendBatchTransaction
                [ContractCall (Some usdc) "approve"
                   [PString CONTRACT_ADDRESSES.AAVE; PString amountDecimals];
                 ContractCall (Some aave) "supply"
                   [PString CONTRACT_ADDRESSES.USDC_TOKEN; PString amountDecimals;
                    PString (address account); PString "0"]]
                account;
              ConsoleLog ("Deposit to AAVE completed: " ++ hash)])%list.
Proof.
  intros H.
  destruct (approveAndSupplyToAave_inv env self amount st st' hash H)
    as (instance & usdc & aave & account & st1 & st2 & amountDecimals
        & Hi & Hu & Hv & Ha & Hguard & Hconv).
  exists usdc, aave, account, st1, st2, amountDecimals.
  rewrite (approveAndSupplyToAave_eval env self amount st st1 st2 instance account
             usdc aave amountDecimals Hi Hu Hv Ha Hguard Hconv) in H.
  cbv zeta in H. unfold aave_supply_batch in H.
  destruct (env_sendBatchTransaction env _ account (world st2)) as [w3 [h|e]] eqn:Hsend;
    [| discriminate H].
  inversion H; subst. cbn [world trace]. repeat split; assumption || reflexivity.
Qed.

Lemma approveAndSupplyToAave_batch_shape_witness :
  exists usdc aave account st1 st2 amountDecimals,
    usdcContract Sample.wallet = Some usdc
    /\ aaveContract Sample.wallet = Some aave
    /\ hasEnoughUSDC (Sample.chain (Ok 6%nat) 2500000 0) Sample.wallet "1" Sample.start
       = (st1, Ok true)
    /\ getTokenAmount (Sample.chain (Ok 6%nat) 2500000 0) "1"
         CONTRACT_ADDRESSES.USDC_TOKEN st1
       = (st2, Ok amountDecimals)
    /\ env_sendBatchTransaction (Sample.chain (Ok 6%nat) 2500000 0)
         [ContractCall (Some usdc) "approve"
            [PString CONTRACT_ADDRESSES.AAVE; PString amountDecimals];
          ContractCall (Some aave) "supply"
            [PString CONTRACT_ADDRESSES.USDC_TOKEN; PString amountDecimals;
             PString (address account); PString "0"]]
         account (world st2)
       = (world (fst (approveAndSupplyToAave (Sample.chain (Ok 6%nat) 2500000 0)
                        Sample.wallet "1" Sample.start)), Ok "0xbeef")
    /\ trace (fst (approveAndSupplyToAave (Sample.chain (Ok 6%nat) 2500000 0)
                     Sample.wallet "1" Sample.start))
       = (trace st2
          ++ [SendBatchTransaction
                [ContractCall (Some usdc) "approve"
                   [PString CONTRACT_ADDRESSES.AAVE; PString amountDecimals];
                 ContractCall (Some aave) "supply"
                   [PString CONTRACT_ADDRESSES.USDC_TOKEN; PString amountDecimals;
                    PString (address account); PString "0"]]
                account;
              ConsoleLog ("Deposit to AAVE completed: " ++ "0xbeef")])%list.
Proof.
  apply (approveAndSupplyToAave_batch_shape (Sample.chain (Ok 6%nat) 2500000 0)
           Sample.wallet "1" Sample.start _ "0xbeef").
  reflexivity.
Defined.

(** X2. With the wallet connected and both handles set, once the guard
    has passed and the amount is converted, [approveAndSupplyToAave]
    hands the batch to [sendBatchTransaction] exactly once. If the
    submission answers a hash, that hash is logged and returned; if it
    throws, the same error is written to the error console and thrown
    again, and nothing is sent a second time. *)
Theorem approveAndSupplyToAave_single_attempt {W : Type} (env : Env W)
    (self : SonicSmartWallet) (amount : string)
    (st st1 st2 : State W) (instance : SmartWallet) (account : Account)
    (usdc aave : Contract) (amountDecimals : string) :
  smartWalletInstance self = Some instance ->
  usdcContract self = Some usdc ->
  aaveContract self = Some aave ->
  getAccount instance = Some account ->
  hasEnoughUSDC env self amount st = (st1, Ok true) ->
  getTokenAmount env amount CONTRACT_ADDRESSES.USDC_TOKEN st1 = (st2, Ok amountDecimals) ->
  approveAndSupplyToAave env self amount st
  = let batch := aave_supply_batch usdc aave amountDecimals account in
    match env_sendBatchTransaction env batch account (world st2) with
    | (w3, Ok hash) =>
      (mkState w3 (trace st2
                   ++ [SendBatchTransaction batch account;
                       ConsoleLog ("Deposit to AAVE completed: " ++ hash)]),
       Ok hash)
    | (w3, Throw e) =>
      (mkState w3 (trace st2
                   ++ [SendBatchTransaction batch account;
                       ConsoleError "Error in depositing to Aave:" e]),
       Throw e)
    end.
Proof.
  apply approveAndSupplyToAave_eval.
Qed.

Lemma approveAndSupplyToAave_single_attempt_witness :
  approveAndSupplyToAave (refusing 6 2500000) Sample.wallet "1" Sample.start
  = (mkState tt
       ([] ++ [SendBatchTransaction
                 (aave_supply_batch (getContract CONTRACT_ADDRESSES.USDC_TOKEN)
                    (getContract CONTRACT_ADDRESSES.AAVE) "1000000" Sample.account)
                 Sample.account;
               ConsoleError "Error in depositing to Aave:" (Error "execution reverted")]),
     Throw (Error "execution reverted")).
Proof.
  apply (approveAndSupplyToAave_single_attempt (refusing 6 2500000) Sample.wallet "1"
           Sample.start Sample.start Sample.start
           (mkSmartWallet (Some Sample.account)) Sample.account
           (getContract CONTRACT_ADDRESSES.USDC_TOKEN)
           (getContract CONTRACT_ADDRESSES.AAVE) "1000000");
    reflexivity.
Defined.

(** X3. Whenever [withdrawFromAave] succeeds, the amount was converted to
    some [amountDecimals] and after the conversion the run submitted one
    transaction, withdraw(USDC, amountDecimals, account) on the pool,
    then printed the completion line with the hash it returns. *)
Theorem withdrawFromAave_call_shape {W : Type} (env : Env W)
    (self : SonicSmartWallet) (amount : string) (st st' : State W) (hash : string) :
  withdrawFromAave env self amount st = (st', Ok hash) ->
  exists aave account st1 amountDecimals,
    aaveContract self = Some aave
    /\ getTokenAmount env amount CONTRACT_ADDRESSES.USDC_TOKEN st
       = (st1, Ok amountDecimals)
    /\ env_sendTransaction env
         (ContractCall (Some aave) "withdraw"
            [PString CONTRACT_ADDRESSES.USDC_TOKEN; PString amountDecimals;
             PString (address account)])
         account (world st1)
       = (world st', Ok hash)
    /\ trace st'
       = (trace st1
          ++ [SendTransaction
                (ContractCall (Some aave) "withdraw"
                   [PString CONTRACT_ADDRESSES.USDC_TOKEN; PString amountDecimals;
                    PString (address account)])
                account;
              ConsoleLog ("Withdraw from Aave completed: " ++ hash)])%list.
Proof.
  intros H.
  destruct (withdrawFromAave_inv env self amount st st' hash H)
    as (instance & aave & account & st1 & amountDecimals & Hi & Hv & Ha & Hconv).
  exists aave, account, st1, amountDecimals.
  rewrite (withdrawFromAave_eval env self amount st st1 instance account aave
             amountDecimals Hi Hv Ha Hconv) in H.
  cbv zeta in H. unfold aave_withdraw_call in H.
  destruct (env_sendTransaction env _ account (world st1)) as [w2 [h|e]] eqn:Hsend;
    [| discriminate H].
  inversion H; subst. cbn [world trace]. repeat split; assumption || reflexivity.
Qed.

Lemma withdrawFromAave_call_shape_witness :
  exists aave account st1 amountDecimals,
    aaveContract Sample.wallet = Some aave
    /\ getTokenAmount (Sample.chain (Ok 6%nat) 0 0) "2.5" CONTRACT_ADDRESSES.USDC_TOKEN
         Sample.start
       = (st1, Ok amountDecimals)
    /\ env_sendTransaction (Sample.chain (Ok 6%nat) 0 0)
         (ContractCall (Some aave) "withdraw"
            [PString CONTRACT_ADDRESSES.USDC_TOKEN; PString amountDecimals;
             PString (address account)])
         account (world st1)
       = (world (fst (withdrawFromAave (Sample.chain (Ok 6%nat) 0 0) Sample.wallet "2.5"
                        Sample.start)), Ok "0xfeed")
    /\ trace (fst (withdrawFromAave (Sample.chain (Ok 6%nat) 0 0) Sample.wallet "2.5"
                     Sample.start))
       = (trace st1
          ++ [SendTransaction
                (ContractCall (Some aave) "withdraw"
                   [PString CONTRACT_ADDRESSES.USDC_TOKEN; PString amountDecimals;
                    PString (address account)])
                account;
              ConsoleLog ("Withdraw from Aave completed: " ++ "0xfeed")])%list.
Proof.
  apply (withdrawFromAave_call_shape (Sample.chain (Ok 6%nat) 0 0) Sample.wallet "2.5"
           Sample.start _ "0xfeed").
  reflexivity.
Defined.

Section Independence.

Context {W : Type}.
Variables env1 env2 : Env W.

Hypothesis same_decimals :
  forall c w, env_decimals env1 c w = env_decimals env2 c w.
Hypothesis same_sendTransaction :
  forall t a w, env_sendTransaction env1 t a w = env_sendTransaction env2 t a w.

Lemma try_catch_ext {A : Type} (m m' : Run W A) (h : exn -> Run W A) st :
  (forall s, m s = m' s) -> try_catch m h st = try_catch m' h st.
Proof. intros H. unfold try_catch. now rewrite H. Qed.

Lemma getTokenAmount_ext (amount token : string) st :
  getTokenAmount env1 amount token st = getTokenAmount env2 amount token st.
Proof.
  unfold getTokenAmount. apply try_catch_ext. intros s.
  apply bind_ext; [| reflexivity].
  intros s'. unfold decimals, ask. now rewrite same_decimals.
Qed.

Lemma sendTransaction_ext (t : PreparedTransaction) (a : Account) st :
  sendTransaction env1 t a st = sendTransaction env2 t a st.
Proof.
  unfold sendTransaction. apply bind_ext; [reflexivity |].
  intros _ s. unfold ask. now rewrite same_sendTransaction.
Qed.

Lemma withdrawFromAave_ext (self : SonicSmartWallet) (amount : string) st :
  withdrawFromAave env1 self amount st = withdrawFromAave env2 self amount st.
Proof.
  unfold withdrawFromAave. apply try_catch_ext. intros s.
  apply bind_ext; [reflexivity | intros instance s1].
  apply bind_ext; [reflexivity | intros _ s2].
  apply bind_ext; [reflexivity | intros account s3].
  apply bind_ext; [apply getTokenAmount_ext | intros amountDecimals s4].
  apply bind_ext; [apply sendTransaction_ext | reflexivity].
Qed.

End Independence.

(** X4. [withdrawFromAave] is not guarded by any balance: two worlds that
    answer the precision read and the single-transaction submission alike
    give the same run, whatever they answer to balance reads, batch
    submissions, connection or encoding. *)
Theorem withdrawFromAave_ignores_balances {W : Type} (env1 env2 : Env W)
    (self : SonicSmartWallet) (amount : string) (st : State W) :
  (forall c w, env_decimals env1 c w = env_decimals env2 c w) ->
  (forall t a w, env_sendTransaction env1 t a w = env_sendTransaction env2 t a w) ->
  withdrawFromAave env1 self amount st = withdrawFromAave env2 self amount st.
Proof.
  intros Hd Hs. now apply withdrawFromAave_ext.
Qed.

Lemma withdrawFromAave_ignores_balances_witness :
  withdrawFromAave (Sample.chain (Ok 6%nat) 0 0) Sample.wallet "1" Sample.start
  = withdrawFromAave (Sample.chain (Ok 6%nat) 1000000 7) Sample.wallet "1" Sample.start.
Proof.
  apply (withdrawFromAave_ignores_balances (Sample.chain (Ok 6%nat) 0 0)
           (Sample.chain (Ok 6%nat) 1000000 7) Sample.wallet "1" Sample.start);
    reflexivity.
Defined.

(** ** How much an operation can send *)

Section Sending.

Context {W : Type}.
Variable env : Env W.

Lemma at_most_silent {A : Type} (m : Run W A) : silent m -> sends_at_most 0 m.
Proof.
  intros Hm st st' r H. exists []. split; [| apply Nat.le_refl].
  rewrite (Hm _ _ _ H). now rewrite List.app_nil_r.
Qed.

Lemma at_most_weaken {A : Type} (k k' : nat) (m : Run W A) :
  (k <= k')%nat -> sends_at_most k m -> sends_at_most k' m.
Proof.
  intros Hk Hm st st' r H. destruct (Hm _ _ _ H) as (sent & E & L).
  exists sent. split; [exact E | lia].
Qed.

Lemma at_most_bind {A B : Type} (a b : nat) (m : Run W A) (k : A -> Run W B) :
  sends_at_most a m -> (forall x, sends_at_most b (k x)) ->
  sends_at_most (a + b) (bind m k).
Proof.
  intros Hm Hk st st2 r H. apply bind_inv in H.
  destruct H as [(st1 & x & H1 & H2) | (e & H1 & _)].
  - destruct (Hm _ _ _ H1) as (s1 & E1 & L1).
    destruct (Hk x _ _ _ H2) as (s2 & E2 & L2).
    exists (s1 ++ s2)%list. split.
    + now rewrite E2, E1, List.app_assoc.
    + rewrite length_app. lia.
  - destruct (Hm _ _ _ H1) as (s1 & E1 & L1).
    exists s1. split; [exact E1 | lia].
Qed.

Lemma at_most_after_silent {A B : Type} (b : nat) (m : Run W A) (k : A -> Run W B) :
  silent m -> (forall x, sends_at_most b (k x)) -> sends_at_most b (bind m k).
Proof.
  intros Hm Hk. apply (at_most_bind 0 b); [now apply at_most_silent | exact Hk].
Qed.

Lemma at_most_then_silent {A B : Type} (a : nat) (m : Run W A) (k : A -> Run W B) :
  sends_at_most a m -> (forall x, silent (k x)) -> sends_at_most a (bind m k).
Proof.
  intros Hm Hk. apply (at_most_weaken (a + 0) a); [lia |].
  apply at_most_bind; [exact Hm | intros x; now apply at_most_silent].
Qed.

Lemma at_most_try_catch {A : Type} (a : nat) (m : Run W A) (h : exn -> Run W A) :
  sends_at_most a m -> (forall e, silent (h e)) -> sends_at_most a (try_catch m h).
Proof.
  intros Hm Hh st st2 r H. apply try_catch_inv in H.
  destruct H as [(x & H1 & _) | (st1 & e & H1 & H2)].
  - exact (Hm _ _ _ H1).
  - destruct (Hm _ _ _ H1) as (s1 & E1 & L1).
    exists s1. split; [| exact L1]. now rewrite (Hh e _ _ _ H2).
Qed.

Lemma at_most_sendTransaction (t : PreparedTransaction) (a : Account) :
  sends_at_most 1 (sendTransaction env t a).
Proof.
  intros st st' r H. unfold sendTransaction, bind, emit, ask in H.
  cbn [world trace] in H.
  destruct (env_sendTransaction env t a (world st)) as [w' r'].
  inversion H; subst. cbn [trace].
  exists [SendTransaction t a]. split; [now rewrite submissions_app | apply Nat.le_refl].
Qed.

Lemma at_most_sendBatchTransaction (ts : list PreparedTransaction) (a : Account) :
  sends_at_most 1 (sendBatchTransaction env ts a).
Proof.
  intros st st' r H. unfold sendBatchTransaction, bind, emit, ask in H.
  cbn [world trace] in H.
  destruct (env_sendBatchTransaction env ts a (world st)) as [w' r'].
  inversion H; subst. cbn [trace].
  exists [SendBatchTransaction ts a]. split;
    [now rewrite submissions_app | apply Nat.le_refl].
Qed.

Lemma silent_generateTransferFromCalldata (from to amount : string) :
  silent (generateTransferFromCalldata env from to amount).
Proof. unfold generateTransferFromCalldata. silence. Qed.

Lemma silent_generateApproveCalldata (owner spender amount : string) :
  silent (generateApproveCalldata env owner spender amount).
Proof. unfold generateApproveCalldata. silence. Qed.

Lemma silent_generateDepositCalldata (asset amount collateral : string) :
  silent (generateDepositCalldata env asset amount collateral).
Proof. unfold generateDepositCalldata. silence. Qed.

Lemma silent_initializeSmartWallet (self : SonicSmartWallet) :
  silent (initializeSmartWallet env self).
Proof. unfold initializeSmartWallet. silence. Qed.

End Sending.

#[export] Hint Resolve silent_getTokenAmount silent_hasEnoughUSDC silent_balanceOf
  silent_generateTransferFromCalldata silent_generateApproveCalldata
  silent_generateDepositCalldata silent_initializeSmartWallet : silent.

Create HintDb sends.
#[export] Hint Resolve at_most_sendTransaction at_most_sendBatchTransaction : sends.

(** Walk through an operation: everything before the submission and
    everything after it is silent. *)
Ltac bound_sends :=
  repeat first
    [ solve [apply (at_most_weaken 0); [lia | apply at_most_silent; silence]]
    | apply at_most_try_catch; [| solve [silence]]
    | apply at_most_after_silent; [solve [silence] | intro]
    | apply at_most_then_silent; [solve [auto with sends] | solve [silence]]
    | match goal with
      | |- sends_at_most _ (if ?b then _ else _) => destruct b
      end ].

Section OneSubmission.

Context {W : Type}.
Variable env : Env W.

Lemma at_most_approveAndSupplyToAave (self : SonicSmartWallet) (amount : string) :
  sends_at_most 1 (approveAndSupplyToAave env self amount).
Proof. unfold approveAndSupplyToAave. bound_sends. Qed.

Lemma at_most_withdrawFromAave (self : SonicSmartWallet) (amount : string) :
  sends_at_most 1 (withdrawFromAave env self amount).
Proof. unfold withdrawFromAave. bound_sends. Qed.

Lemma at_most_approveAndDepositToSilo (self : SonicSmartWallet) (amount : string) :
  sends_at_most 1 (approveAndDepositToSilo env self amount).
Proof. unfold approveAndDepositToSilo. bound_sends. Qed.

Lemma at_most_withdrawFromSilo (self : SonicSmartWallet) :
  sends_at_most 1 (withdrawFromSilo env self).
Proof. unfold withdrawFromSilo. bound_sends. Qed.

End OneSubmission.

(** X5. No operation retries or sends twice: however it ends, a call of
    [approveAndSupplyToAave], [withdrawFromAave],
    [approveAndDepositToSilo] or [withdrawFromSilo] adds at most one
    submission (single transaction or batch) to those already made. *)
Theorem operations_send_at_most_once {W : Type} (env : Env W)
    (self : SonicSmartWallet) (amount : string) :
  sends_at_most 1 (approveAndSupplyToAave env self amount)
  /\ sends_at_most 1 (withdrawFromAave env self amount)
  /\ sends_at_most 1 (approveAndDepositToSilo env self amount)
  /\ sends_at_most 1 (withdrawFromSilo env self).
Proof.
  repeat split.
  - apply at_most_approveAndSupplyToAave.
  - apply at_most_withdrawFromAave.
  - apply at_most_approveAndDepositToSilo.
  - apply at_most_withdrawFromSilo.
Qed.

Lemma operations_send_at_most_once_witness :
  exists sent,
    submissions
      (trace (fst (approveAndDepositToSilo (refusing 6 2500000) Sample.wallet "1"
                     Sample.start)))
    = (submissions (trace Sample.start) ++ sent)%list
    /\ (List.length sent <= 1)%nat.
Proof.
  apply (proj1 (proj2 (proj2 (operations_send_at_most_once (refusing 6 2500000)
                                Sample.wallet "1")))
           Sample.start _
           (snd (approveAndDepositToSilo (refusing 6 2500000) Sample.wallet "1"
                   Sample.start))).
  reflexivity.
Defined.

(** ** Failures *)




(** ** The converter away from the main path *)

Section ConverterEdges.

Context {W : Type}.
Variable env : Env W.

Lemma getTokenAmount_read_fails_eval (amount token : string) (st : State W) w1 e :
  env_decimals env (getContract token) (world st) = (w1, Throw e) ->
  getTokenAmount env amount token st
  = (mkState w1 (trace st ++ [ConsoleError "Error converting token amount:" e;
                              ConsoleLog "Falling back to 6 decimals for USDC"]),
     match Ethers.parseUnits amount 6 with
     | Ok units => Ok (toString units)
     | Throw e' => Throw e'
     end).
Proof.
  intros Hread.
  unfold getTokenAmount, try_catch, bind, decimals, ask, lift, ret,
    console_error, console_log, emit.
  rewrite Hread. cbn [world trace]. rewrite <- List.app_assoc.
  destruct (Ethers.parseUnits amount 6); reflexivity.
Qed.

Lemma parseUnits_malformed (amount : string) (unit : nat) :
  well_formed_amount amount = false ->
  Ethers.parseUnits amount unit = Throw (Error "invalid FixedNumber string value").
Proof.
  unfold well_formed_amount, Ethers.parseUnits, Ethers.fromString.
  destruct (Ethers.match_fixed amount) as [[[sign m2] m3]|]; [| reflexivity].
  destruct (String.length m2 + String.length m3 =? 0)%nat; [reflexivity | discriminate].
Qed.

(** A malformed amount makes the conversion throw whatever the chain
    answers, and the conversion submits nothing. *)
Lemma getTokenAmount_malformed (amount token : string) (st : State W) :
  well_formed_amount amount = false ->
  exists st1,
    getTokenAmount env amount token st
    = (st1, Throw (Error "invalid FixedNumber string value"))
    /\ submissions (trace st1) = submissions (trace st).
Proof.
  intros Hbad.
  destruct (getTokenAmount env amount token st) as [st1 r] eqn:H.
  exists st1. split; [| exact (silent_getTokenAmount env _ _ _ _ _ H)].
  f_equal. revert H.
  unfold getTokenAmount, try_catch, bind, decimals, ask, lift, ret,
    console_error, console_log, emit.
  destruct (env_decimals env (getContract token) (world st)) as [w1 [p|e]];
    rewrite ?(parseUnits_malformed amount p Hbad); cbn [world trace];
    rewrite (parseUnits_malformed amount 6 Hbad); intros H; now inversion H.
Qed.

Lemma hasEnoughUSDC_malformed (self : SonicSmartWallet) (amount : string) (st : State W) :
  well_formed_amount amount = false ->
  exists st1 e,
    hasEnoughUSDC env self amount st = (st1, Throw e)
    /\ submissions (trace st1) = submissions (trace st).
Proof.
  intros Hbad.
  destruct (hasEnoughUSDC env self amount st) as [st1 r] eqn:H.
  pose proof (silent_hasEnoughUSDC env _ _ _ _ _ H) as Hs.
  destruct r as [b|e]; [| now exists st1, e].
  exfalso. unfold hasEnoughUSDC in H. apply rethrow_inv in H.
  destruct (smartWalletInstance self) as [instance|]; [| discriminate H].
  destruct (usdcContract self) as [usdc|]; [| discriminate H].
  unfold defined in H.
  destruct (getAccount instance) as [account|];
    [| unfold bind, throw in H; discriminate H].
  unfold bind at 1, ret at 1 in H.
  apply bind_inv in H. destruct H as [(st2 & required & Hconv & _) | (e & _ & E)];
    [| discriminate E].
  destruct (getTokenAmount_malformed amount CONTRACT_ADDRESSES.USDC_TOKEN st Hbad)
    as (st3 & Hthrow & _).
  rewrite Hthrow in Hconv. discriminate Hconv.
Qed.

End ConverterEdges.

(** X7. When the precision read fails, [getTokenAmount] writes the error
    and the fall-back notice to the console and converts at 6 decimals:
    for a decimal amount whose product with 10^6 is an integer [units]
    in range, the result is the decimal string of [units]. *)
Theorem getTokenAmount_falls_back_to_six {W : Type} (env : Env W) (st : State W)
    (w1 : W) (token : string) (e : exn)
    (negative point : bool) (whole frac : string) (units : Z) :
  all_digits whole = true -> all_digits frac = true ->
  (0 < String.length whole + String.length frac)%nat ->
  (point = false -> frac = EmptyString) ->
  env_decimals env (getContract token) (world st) = (w1, Throw e) ->
  units * 10 ^ Z.of_nat (String.length frac)
    = sign_of negative * digits_value (whole ++ frac) * 10 ^ 6 ->
  - 2 ^ 511 <= units < 2 ^ 511 ->
  getTokenAmount env (decimal_text negative whole point frac) token st
  = (mkState w1 (trace st ++ [ConsoleError "Error converting token amount:" e;
                              ConsoleLog "Falling back to 6 decimals for USDC"]),
     Ok (toString units)).
Proof.
  intros Hw Hf Hlen Hp Hread Hexact Hrange.
  rewrite (getTokenAmount_read_fails_eval env _ token st w1 e Hread).
  rewrite (parseUnits_exact negative point whole frac 6 units); try assumption.
  - reflexivity.
  - lia.
Qed.

Lemma getTokenAmount_falls_back_to_six_witness :
  getTokenAmount (Sample.chain (Throw (Error "call reverted")) 0 0) "0.75"
    CONTRACT_ADDRESSES.USDC_TOKEN Sample.start
  = (mkState tt ([] ++ [ConsoleError "Error converting token amount:"
                          (Error "call reverted");
                        ConsoleLog "Falling back to 6 decimals for USDC"]),
     Ok "750000").
Proof.
  apply (getTokenAmount_falls_back_to_six (Sample.chain (Throw (Error "call reverted")) 0 0)
           Sample.start tt CONTRACT_ADDRESSES.USDC_TOKEN (Error "call reverted")
           false true "0" "75" 750000).
  - reflexivity.
  - reflexivity.
  - simpl. lia.
  - discriminate.
  - reflexivity.
  - vm_compute. reflexivity.
  - split; [apply Z.leb_le | apply Z.ltb_lt]; vm_compute; reflexivity.
Defined.

(** X8. An amount that is not a decimal number (it does not match the
    pattern sign, digits, point, digits, or holds no digit at all) never
    reaches the chain: the conversion throws whatever precision is read,
    and each of the three operations that take an amount throws without
    submitting anything. *)
Theorem malformed_amount_never_submits {W : Type} (env : Env W)
    (self : SonicSmartWallet) (amount : string) (st : State W) :
  well_formed_amount amount = false ->
  snd (getTokenAmount env amount CONTRACT_ADDRESSES.USDC_TOKEN st)
  = Throw (Error "invalid FixedNumber string value")
  /\ ((exists e, snd (approveAndSupplyToAave env self amount st) = Throw e)
      /\ submissions (trace (fst (approveAndSupplyToAave env self amount st)))
         = submissions (trace st))
  /\ ((exists e, snd (withdrawFromAave env self amount st) = Throw e)
      /\ submissions (trace (fst (withdrawFromAave env self amount st)))
         = submissions (trace st))
  /\ ((exists e, snd (approveAndDepositToSilo env self amount st) = Throw e)
      /\ submissions (trace (fst (approveAndDepositToSilo env self amount st)))
         = submissions (trace st)).
Proof.
  intros Hbad.
  destruct (hasEnoughUSDC_malformed env self amount st Hbad) as (st1 & e & Hguard & Hs).
  split; [| split; [| split]].
  - destruct (getTokenAmount_malformed env amount CONTRACT_ADDRESSES.USDC_TOKEN st Hbad)
      as (st2 & H & _).
    now rewrite H.
  - unfold approveAndSupplyToAave.
    rewrite (rethrow_throw _ _ _ _ _ (bind_throw _ _ _ _ _ Hguard)).
    cbn [fst snd trace]. split; [now exists e |].
    rewrite submissions_app. cbn. now rewrite List.app_nil_r.
  - destruct (withdrawFromAave env self amount st) as [st' r] eqn:H. cbn [fst snd].
    destruct r as [hash|e'].
    + exfalso.
      destruct (withdrawFromAave_inv env self amount st st' hash H)
        as (instance & aave & account & st2 & amountDecimals & _ & _ & _ & Hconv).
      destruct (getTokenAmount_malformed env amount CONTRACT_ADDRESSES.USDC_TOKEN st Hbad)
        as (st3 & Hthrow & _).
      rewrite Hthrow in Hconv. discriminate Hconv.
    + split; [now exists e' |].
      unfold withdrawFromAave in H.
      apply try_catch_inv in H.
      destruct H as [(a & _ & E) | (st2 & e2 & Hbody & Hh)]; [discriminate E |].
      unfold bind, console_error, emit, throw in Hh. inversion Hh; subst. cbn [trace].
      rewrite submissions_app. cbn. rewrite List.app_nil_r.
      revert Hbody. unfold defined.
      destruct (smartWalletInstance self) as [instance|];
        [| unfold bind, throw; intros Hb; now inversion Hb].
      destruct (aaveContract self) as [aave|];
        [| unfold bind, throw, ret; intros Hb; now inversion Hb].
      unfold bind at 1, ret at 1. unfold bind at 1, ret at 1.
      destruct (getAccount instance) as [account|];
        [| unfold bind, throw; intros Hb; now inversion Hb].
      unfold bind at 1, ret at 1.
      destruct (getTokenAmount_malformed env amount CONTRACT_ADDRESSES.USDC_TOKEN st Hbad)
        as (st3 & Hthrow & Hs3).
      rewrite (bind_throw _ _ _ _ _ Hthrow). intros Hb. now inversion Hb; subst.
  - unfold approveAndDepositToSilo.
    rewrite (rethrow_throw _ _ _ _ _ (bind_throw _ _ _ _ _ Hguard)).
    cbn [fst snd trace]. split; [now exists e |].
    rewrite submissions_app. cbn. now rewrite List.app_nil_r.
Qed.

Lemma malformed_amount_never_submits_witness :
  snd (getTokenAmount (Sample.chain (Ok 6%nat) 2500000 0) "1e6"
         CONTRACT_ADDRESSES.USDC_TOKEN Sample.start)
  = Throw (Error "invalid FixedNumber string value")
  /\ ((exists e, snd (approveAndSupplyToAave (Sample.chain (Ok 6%nat) 2500000 0)
                        Sample.wallet "1e6" Sample.start) = Throw e)
      /\ submissions (trace (fst (approveAndSupplyToAave (Sample.chain (Ok 6%nat) 2500000 0)
                                    Sample.wallet "1e6" Sample.start)))
         = submissions (trace Sample.start))
  /\ ((exists e, snd (withdrawFromAave (Sample.chain (Ok 6%nat) 2500000 0)
                        Sample.wallet "1e6" Sample.start) = Throw e)
      /\ submissions (trace (fst (withdrawFromAave (Sample.chain (Ok 6%nat) 2500000 0)
                                    Sample.wallet "1e6" Sample.start)))
         = submissions (trace Sample.start))
  /\ ((exists e, snd (approveAndDepositToSilo (Sample.chain (Ok 6%nat) 2500000 0)
                        Sample.wallet "1e6" Sample.start) = Throw e)
      /\ submissions (trace (fst (approveAndDepositToSilo (Sample.chain (Ok 6%nat) 2500000 0)
                                    Sample.wallet "1e6" Sample.start)))
         = submissions (trace Sample.start)).
Proof.
  apply (malformed_amount_never_submits (Sample.chain (Ok 6%nat) 2500000 0)
           Sample.wallet "1e6" Sample.start).
  reflexivity.
Defined.

(** ** The guard away from the main path *)

Section GuardEdges.

Context {W : Type}.
Variable env : Env W.

Lemma hasEnoughUSDC_read_throws (self : SonicSmartWallet) (amount required : string)
    (st st1 : State W) (account : Account) (usdc : Contract) (w2 : W) (e : exn) :
  guard_ready self account usdc ->
  getTokenAmount env amount CONTRACT_ADDRESSES.USDC_TOKEN st = (st1, Ok required) ->
  env_balanceOf env usdc (address account) (world st1) = (w2, Throw e) ->
  hasEnoughUSDC env self amount st
  = (mkState w2 (trace st1 ++ [ConsoleError "Error checking USDC balance:" e]), Throw e).
Proof.
  intros (instance & Hi & Ha & Hu) Hconv Hbal.
  unfold hasEnoughUSDC. rewrite Hi, Hu.
  rewrite (rethrow_throw _ _ st (mkState w2 (trace st1)) e); [reflexivity |].
  rewrite Ha. cbn [defined]. unfold bind at 1, ret at 1.
  rewrite (bind_ok _ _ _ _ _ Hconv).
  apply bind_throw. unfold balanceOf, ask. now rewrite Hbal.
Qed.

End GuardEdges.

(** X9. A balance that cannot be read is not treated as an insufficient
    balance: when the balance read throws [e], the guard throws [e]
    instead of returning false, and both guarded operations throw the
    same [e] (not their insufficient-funds error) after logging it,
    without submitting anything. *)
Theorem balance_read_failure_propagates {W : Type} (env : Env W)
    (self : SonicSmartWallet) (amount required : string)
    (st st1 : State W) (account : Account) (usdc : Contract) (w2 : W) (e : exn) :
  guard_ready self account usdc ->
  getTokenAmount env amount CONTRACT_ADDRESSES.USDC_TOKEN st = (st1, Ok required) ->
  env_balanceOf env usdc (address account) (world st1) = (w2, Throw e) ->
  hasEnoughUSDC env self amount st
  = (mkState w2 (trace st1 ++ [ConsoleError "Error checking USDC balance:" e]), Throw e)
  /\ approveAndSupplyToAave env self amount st
     = (mkState w2 (trace st1 ++ [ConsoleError "Error checking USDC balance:" e;
                                  ConsoleError "Error in depositing to Aave:" e]),
        Throw e)
  /\ approveAndDepositToSilo env self amount st
     = (mkState w2 (trace st1 ++ [ConsoleError "Error checking USDC balance:" e;
                                  ConsoleError "Error in Function 3:" e]),
        Throw e).
Proof.
  intros Hready Hconv Hbal.
  pose proof (hasEnoughUSDC_read_throws env self amount required st st1 account usdc w2 e
                Hready Hconv Hbal) as Hguard.
  split; [exact Hguard |]. split.
  - unfold approveAndSupplyToAave.
    rewrite (rethrow_throw _ _ _ _ _ (bind_throw _ _ _ _ _ Hguard)).
    cbn [world trace]. now rewrite <- List.app_assoc.
  - unfold approveAndDepositToSilo.
    rewrite (rethrow_throw _ _ _ _ _ (bind_throw _ _ _ _ _ Hguard)).
    cbn [world trace]. now rewrite <- List.app_assoc.
Qed.

Lemma balance_read_failure_propagates_witness :
  hasEnoughUSDC (unreadable 6) Sample.wallet "1" Sample.start
  = (mkState tt ([] ++ [ConsoleError "Error checking USDC balance:" (Error "rpc timeout")]),
     Throw (Error "rpc timeout"))
  /\ approveAndSupplyToAave (unreadable 6) Sample.wallet "1" Sample.start
     = (mkState tt ([] ++ [ConsoleError "Error checking USDC balance:" (Error "rpc timeout");
                           ConsoleError "Error in depositing to Aave:" (Error "rpc timeout")]),
        Throw (Error "rpc timeout"))
  /\ approveAndDepositToSilo (unreadable 6) Sample.wallet "1" Sample.start
     = (mkState tt ([] ++ [ConsoleError "Error checking USDC balance:" (Error "rpc timeout");
                           ConsoleError "Error in Function 3:" (Error "rpc timeout")]),
        Throw (Error "rpc timeout")).
Proof.
  apply (balance_read_failure_propagates (unreadable 6) Sample.wallet "1" "1000000"
           Sample.start Sample.start Sample.account
           (getContract CONTRACT_ADDRESSES.USDC_TOKEN) tt (Error "rpc timeout")).
  - exact sample_guard_ready.
  - reflexivity.
  - reflexivity.
Defined.

(** X10. On a wallet that was never connected nothing touches the chain:
    the guard, the four operations and [getWalletAddress] all throw a
    not-initialized error with the world exactly as it was, having
    written only their error lines. The two guarded operations fail
    inside the guard, so the error they surface is the guard's. *)
Theorem unconnected_wallet_touches_nothing {W : Type} (env : Env W)
    (self : SonicSmartWallet) (amount : string) (st : State W) :
  smartWalletInstance self = None ->
  let guard_error := Error "Smart wallet or USDC contract not initialized" in
  let wallet_error := Error "Smart wallet not initialized" in
  hasEnoughUSDC env self amount st
  = (mkState (world st)
       (trace st ++ [ConsoleError "Error checking USDC balance:" guard_error]),
     Throw guard_error)
  /\ approveAndSupplyToAave env self amount st
     = (mkState (world st)
          (trace st ++ [ConsoleError "Error checking USDC balance:" guard_error;
                        ConsoleError "Error in depositing to Aave:" guard_error]),
        Throw guard_error)
  /\ approveAndDepositToSilo env self amount st
     = (mkState (world st)
          (trace st ++ [ConsoleError "Error checking USDC balance:" guard_error;
                        ConsoleError "Error in Function 3:" guard_error]),
        Throw guard_error)
  /\ withdrawFromAave env self amount st
     = (mkState (world st) (trace st ++ [ConsoleError "Error in Function 2:" wallet_error]),
        Throw wallet_error)
  /\ withdrawFromSilo env self st
     = (mkState (world st)
          (trace st ++ [ConsoleError "Error in Withdrawing from Silo:" wallet_error]),
        Throw wallet_error)
  /\ getWalletAddress self st
     = (st, Throw (Error "Smart wallet not initialized. Call initializeSmartWallet() first.")).
Proof.
  intros Hnone guard_error wallet_error.
  assert (Hguard : hasEnoughUSDC env self amount st
    = (mkState (world st)
         (trace st ++ [ConsoleError "Error checking USDC balance:" guard_error]),
       Throw guard_error)).
  { unfold hasEnoughUSDC. rewrite Hnone. now apply rethrow_throw. }
  split; [exact Hguard |].
  split; [| split; [| split; [| split]]].
  - unfold approveAndSupplyToAave.
    rewrite (rethrow_throw _ _ _ _ _ (bind_throw _ _ _ _ _ Hguard)).
    cbn [world trace]. now rewrite <- List.app_assoc.
  - unfold approveAndDepositToSilo.
    rewrite (rethrow_throw _ _ _ _ _ (bind_throw _ _ _ _ _ Hguard)).
    cbn [world trace]. now rewrite <- List.app_assoc.
  - unfold withdrawFromAave. rewrite Hnone. now apply rethrow_throw.
  - unfold withdrawFromSilo. rewrite Hnone. now apply rethrow_throw.
  - unfold getWalletAddress. now rewrite Hnone.
Qed.

Lemma unconnected_wallet_touches_nothing_witness :
  withdrawFromSilo (Sample.chain (Ok 6%nat) 2500000 99) Sample.fresh Sample.start
  = (mkState tt ([] ++ [ConsoleError "Error in Withdrawing from Silo:"
                          (Error "Smart wallet not initialized")]),
     Throw (Error "Smart wallet not initialized")).
Proof.
  apply (unconnected_wallet_touches_nothing (Sample.chain (Ok 6%nat) 2500000 99)
           Sample.fresh "1" Sample.start).
  reflexivity.
Defined.

Section GuardInversion.

Context {W : Type}.
Variable env : Env W.

(** The guard answers only on a connected wallet with a USDC handle. *)
Lemma hasEnoughUSDC_ok_ready (self : SonicSmartWallet) (amount : string)
    (st st1 : State W) (b : bool) :
  hasEnoughUSDC env self amount st = (st1, Ok b) ->
  exists account usdc, guard_ready self account usdc.
Proof.
  intros H. unfold hasEnoughUSDC in H. apply rethrow_inv in H.
  destruct (smartWalletInstance self) as [instance|] eqn:Hi; [| discriminate H].
  destruct (usdcContract self) as [usdc|] eqn:Hu; [| discriminate H].
  unfold defined in H.
  destruct (getAccount instance) as [account|] eqn:Ha;
    [| unfold bind, throw in H; discriminate H].
  exists account, usdc, instance. repeat split; assumption.
Qed.

End GuardInversion.

(** X11. The guard has no lower bound on the amount. For a negative
    decimal amount (valid at the precision read) the required number of
    base units is at most zero, so on a connected wallet the guard
    returns true for every balance the token can report, without
    printing anything. *)
Theorem negative_amount_passes_guard {W : Type} (env : Env W)
    (self : SonicSmartWallet) (st : State W) (w1 w2 : W)
    (account : Account) (usdc : Contract) (precision : nat)
    (point : bool) (whole frac : string) (units balance : Z) :
  guard_ready self account usdc ->
  all_digits whole = true -> all_digits frac = true ->
  (0 < String.length whole + String.length frac)%nat ->
  (point = false -> frac = EmptyString) ->
  env_decimals env (getContract CONTRACT_ADDRESSES.USDC_TOKEN) (world st)
  = (w1, Ok precision) ->
  (precision <= 80)%nat ->
  units * 10 ^ Z.of_nat (String.length frac)
    = - digits_value (whole ++ frac) * 10 ^ Z.of_nat precision ->
  - 2 ^ 511 <= units ->
  env_balanceOf env usdc (address account) w1 = (w2, Ok balance) ->
  0 <= balance < 2 ^ 256 ->
  hasEnoughUSDC env self (decimal_text true whole point frac) st
  = (mkState w2 (trace st), Ok true).
Proof.
  intros Hready Hw Hf Hlen Hp Hread Hprec Hexact Hlow Hbal Hrange.
  assert (Hneg : units <= 0).
  { assert (Hd : all_digits (whole ++ frac) = true)
      by now rewrite all_digits_append, Hw, Hf.
    pose proof (digits_value_bounds _ Hd) as [Hn _].
    assert (0 < 10 ^ Z.of_nat (String.length frac)) by (apply Z.pow_pos_nonneg; lia).
    assert (0 < 10 ^ Z.of_nat precision) by (apply Z.pow_pos_nonneg; lia).
    remember (10 ^ Z.of_nat (String.length frac)) as p.
    remember (10 ^ Z.of_nat precision) as q.
    remember (digits_value (whole ++ frac)) as n.
    clear - Hexact Hn H H0. nia. }
  assert (Hconv : getTokenAmount env (decimal_text true whole point frac)
                    CONTRACT_ADDRESSES.USDC_TOKEN st
                  = (mkState w1 (trace st), Ok (toString units))).
  { apply getTokenAmount_read_ok with (precision := precision); [exact Hread |].
    apply parseUnits_exact; try assumption.
    assert (0 < 2 ^ 511) by (apply Z.pow_pos_nonneg; lia). lia. }
  rewrite (hasEnoughUSDC_eval env self _ st _ account usdc units balance w2
             Hready Hconv Hbal Hrange).
  assert (E : (balance >=? units) = true) by (rewrite Z.geb_leb; apply Z.leb_le; lia).
  now rewrite E.
Qed.

Lemma negative_amount_passes_guard_witness :
  hasEnoughUSDC (Sample.chain (Ok 6%nat) 0 0) Sample.wallet "-1000000.5" Sample.start
  = (mkState tt [], Ok true).
Proof.
  apply (negative_amount_passes_guard (Sample.chain (Ok 6%nat) 0 0) Sample.wallet
           Sample.start tt tt Sample.account (getContract CONTRACT_ADDRESSES.USDC_TOKEN)
           6 true "1000000" "5" (-1000000500000) 0).
  - exact sample_guard_ready.
  - reflexivity.
  - reflexivity.
  - simpl. lia.
  - discriminate.
  - reflexivity.
  - lia.
  - vm_compute. reflexivity.
  - apply Z.leb_le. vm_compute. reflexivity.
  - reflexivity.
  - apply uint256_range. vm_compute. reflexivity.
Defined.

(** ** Connecting *)

(** X12. When [initializeSmartWallet] succeeds, the wallet it leaves
    holds the connected instance and the contract handles it had before,
    one line with the account address was printed, and from then on
    [getWalletAddress] does not throw: it returns that account's address
    (nothing when no account is attached) and changes nothing. *)
Theorem getWalletAddress_after_connect {W : Type} (env : Env W)
    (fresh wallet : SonicSmartWallet) (st st' : State W) :
  initializeSmartWallet env fresh st = (st', Ok wallet) ->
  exists instance,
    env_connect env (world st) = (world st', Ok instance)
    /\ wallet = mkWallet (Some instance) (usdcContract fresh) (aaveContract fresh)
                  (siloContract fresh) (siloBusdContract fresh)
    /\ trace st'
       = (trace st
          ++ [ConsoleLog ("Smart Wallet Address: "
                          ++ match getAccount instance with
                             | Some account => address account
                             | None => "undefined"
                             end)])%list
    /\ getWalletAddress wallet st' = (st', Ok (option_map address (getAccount instance))).
Proof.
  intros H. unfold initializeSmartWallet in H. apply rethrow_inv in H.
  unfold console_log in H. unfold bind, ask, emit, ret in H.
  destruct (env_connect env (world st)) as [w1 [instance|e]] eqn:Hc; [| discriminate H].
  cbn [world trace] in H. inversion H; subst. clear H.
  exists instance. cbn [world trace]. repeat split.
Qed.

Lemma getWalletAddress_after_connect_witness :
  exists instance,
    env_connect (Sample.chain (Ok 6%nat) 0 0) (world Sample.start)
    = (world (mkState tt [ConsoleLog "Smart Wallet Address: 0xA11CE"]), Ok instance)
    /\ Sample.wallet
       = mkWallet (Some instance) (usdcContract Sample.fresh) (aaveContract Sample.fresh)
           (siloContract Sample.fresh) (siloBusdContract Sample.fresh)
    /\ trace (mkState tt [ConsoleLog "Smart Wallet Address: 0xA11CE"])
       = (trace Sample.start
          ++ [ConsoleLog ("Smart Wallet Address: "
                          ++ match getAccount instance with
                             | Some account => address account
                             | None => "undefined"
                             end)])%list
    /\ getWalletAddress Sample.wallet (mkState tt [ConsoleLog "Smart Wallet Address: 0xA11CE"])
       = (mkState tt [ConsoleLog "Smart Wallet Address: 0xA11CE"],
          Ok (option_map address (getAccount instance))).
Proof.
  apply (getWalletAddress_after_connect (Sample.chain (Ok 6%nat) 0 0) Sample.fresh
           Sample.wallet Sample.start
           (mkState tt [ConsoleLog "Smart Wallet Address: 0xA11CE"])).
  reflexivity.
Defined.

(** ** The whole run *)

Section WholeRun.

Context {W : Type}.
Variable env : Env W.

Lemma at_most_invoke (wallet : SonicSmartWallet) (c : WalletCall) :
  sends_at_most 1 (invoke env wallet c).
Proof.
  destruct c; cbn [invoke]; apply at_most_then_silent;
    try (intros x; apply silent_ret).
  - apply at_most_withdrawFromSilo.
  - apply at_most_approveAndSupplyToAave.
  - apply at_most_withdrawFromAave.
  - apply at_most_approveAndDepositToSilo.
Qed.

(** A script sends at most one submission per wallet call it lists. *)
Lemma at_most_run_script (wallet : SonicSmartWallet) (script : list Action) :
  sends_at_most (List.length (wallet_calls script)) (run_script env wallet script).
Proof.
  induction script as [|a script IH].
  - apply at_most_silent, silent_ret.
  - cbn [run_script].
    change (wallet_calls (a :: script)) with (wallet_call a ++ wallet_calls script)%list.
    rewrite length_app.
    apply at_most_bind; [| intros _; exact IH].
    destruct a as [line|ms|c]; cbn [perform wallet_call List.length].
    + apply at_most_silent, silent_console_log.
    + apply at_most_silent. unfold sleep. now apply silent_emit.
    + apply at_most_invoke.
Qed.

Lemma rotation_call_count : List.length (wallet_calls rotation_script) = (4 * cycles - 1)%nat.
Proof. reflexivity. Qed.

Lemma at_most_main (fresh : SonicSmartWallet) :
  sends_at_most (4 * cycles - 1) (main env fresh).
Proof.
  intros st st' r H. rewrite main_runs_script in H. revert st st' r H.
  apply at_most_try_catch; [| intros e; apply silent_console_error].
  apply at_most_after_silent; [apply silent_initializeSmartWallet | intros wallet].
  apply at_most_then_silent; [| intros _; apply silent_console_log].
  rewrite <- rotation_call_count. apply at_most_run_script.
Qed.

End WholeRun.



(** X14. A run of [main] adds at most 4 * cycles - 1 submissions to the
    trace (three in the first cycle, four in each later one): every
    cycle's calls send at most once each, and connecting, logging and
    pausing send nothing. *)
Theorem main_sends_at_most_one_per_call {W : Type} (env : Env W)
    (fresh : SonicSmartWallet) :
  sends_at_most (4 * cycles - 1) (main env fresh).
Proof.
  apply at_most_main.
Qed.

Lemma main_sends_at_most_one_per_call_witness :
  exists sent,
    submissions (trace (fst (main (Sample.chain (Ok 6%nat) 2500000 0) Sample.fresh
                               Sample.start)))
    = (submissions (trace Sample.start) ++ sent)%list
    /\ (List.length sent <= 4 * cycles - 1)%nat.
Proof.
  apply (main_sends_at_most_one_per_call (Sample.chain (Ok 6%nat) 2500000 0) Sample.fresh
           Sample.start _
           (snd (main (Sample.chain (Ok 6%nat) 2500000 0) Sample.fresh Sample.start))).
  vm_compute. reflexivity.
Defined.

(** ** Missing contract handles *)

(** X15. On a connected wallet a missing protocol handle stops the
    protocol's operations with the handle's not-initialized error and no
    submission. The two withdrawals fail at once, before any read of the
    chain: [withdrawFromSilo] demands the router handle although the
    redeem is addressed to the bUSDC contract. The two deposits fail
    right after the guard has passed. *)
Theorem missing_handle_stops_operation {W : Type} (env : Env W)
    (self : SonicSmartWallet) (instance : SmartWallet) (amount : string)
    (st : State W) :
  smartWalletInstance self = Some instance ->
  (aaveContract self = None ->
   withdrawFromAave env self amount st
   = (mkState (world st)
        (trace st ++ [ConsoleError "Error in Function 2:"
                        (Error "Contract 1 not initialized")]),
      Throw (Error "Contract 1 not initialized"))
   /\ forall st1,
        hasEnoughUSDC env self amount st = (st1, Ok true) ->
        approveAndSupplyToAave env self amount st
        = (mkState (world st1)
             (trace st1 ++ [ConsoleError "Error in depositing to Aave:"
                              (Error "Contract 1 not initialized")]),
           Throw (Error "Contract 1 not initialized")))
  /\ (siloContract self = None ->
      withdrawFromSilo env self st
      = (mkState (world st)
           (trace st ++ [ConsoleError "Error in Withdrawing from Silo:"
                           (Error "Contract 2 not initialized")]),
         Throw (Error "Contract 2 not initialized"))
      /\ forall st1,
           hasEnoughUSDC env self amount st = (st1, Ok true) ->
           approveAndDepositToSilo env self amount st
           = (mkState (world st1)
                (trace st1 ++ [ConsoleError "Error in Function 3:"
                                 (Error "Contract 2 not initialized")]),
              Throw (Error "Contract 2 not initialized"))).
Proof.
  intros Hi. split; intros Hnone; split.
  - unfold withdrawFromAave. rewrite Hi, Hnone. now apply rethrow_throw.
  - intros st1 Hguard.
    destruct (hasEnoughUSDC_ok_ready env self amount st st1 true Hguard)
      as (account & usdc & instance' & _ & _ & Hu).
    unfold approveAndSupplyToAave. apply rethrow_throw.
    rewrite (bind_ok _ _ _ _ _ Hguard). cbn [negb].
    now rewrite Hi, Hu, Hnone.
  - unfold withdrawFromSilo. rewrite Hi, Hnone. now apply rethrow_throw.
  - intros st1 Hguard.
    destruct (hasEnoughUSDC_ok_ready env self amount st st1 true Hguard)
      as (account & usdc & instance' & _ & _ & Hu).
    unfold approveAndDepositToSilo. apply rethrow_throw.
    rewrite (bind_ok _ _ _ _ _ Hguard). cbn [negb].
    now rewrite Hi, Hu, Hnone.
Qed.

Lemma missing_handle_stops_operation_witness :
  withdrawFromSilo (Sample.chain (Ok 6%nat) 2500000 77) without_router Sample.start
  = (mkState tt
       ([] ++ [ConsoleError "Error in Withdrawing from Silo:"
                 (Error "Contract 2 not initialized")]),
     Throw (Error "Contract 2 not initialized"))
  /\ forall st1,
       hasEnoughUSDC (Sample.chain (Ok 6%nat) 2500000 77) without_router "1" Sample.start
       = (st1, Ok true) ->
       approveAndDepositToSilo (Sample.chain (Ok 6%nat) 2500000 77) without_router "1"
         Sample.start
       = (mkState (world st1)
            (trace st1 ++ [ConsoleError "Error in Function 3:"
                             (Error "Contract 2 not initialized")]),
          Throw (Error "Contract 2 not initialized")).
Proof.
  apply (missing_handle_stops_operation (Sample.chain (Ok 6%nat) 2500000 77)
           without_router (mkSmartWallet (Some Sample.account)) "1" Sample.start).
  - reflexivity.
  - reflexivity.
Defined.

(** ** Two conversions per deposit *)

(** X16. [approveAndSupplyToAave] converts the amount twice, each time
    with its own precision read: once inside the guard and once for the
    batch. When the first read fails and the second answers
    [precision], the guard compares the balance with the amount at 6
    decimals, while the batch that goes out carries the amount at
    [precision] decimals. *)
Theorem guard_and_batch_convert_independently {W : Type} (env : Env W)
    (self : SonicSmartWallet) (amount : string) (st : State W)
    (instance : SmartWallet) (account : Account) (usdc aave : Contract)
    (w1 w2 w3 : W) (e : exn) (precision : nat) (need units balance : Z) :
  smartWalletInstance self = Some instance ->
  usdcContract self = Some usdc ->
  aaveContract self = Some aave ->
  getAccount instance = Some account ->
  env_decimals env (getContract CONTRACT_ADDRESSES.USDC_TOKEN) (world st) = (w1, Throw e) ->
  Ethers.parseUnits amount 6 = Ok need ->
  env_balanceOf env usdc (address account) w1 = (w2, Ok balance) ->
  0 <= balance < 2 ^ 256 ->
  need <= balance ->
  env_decimals env (getContract CONTRACT_ADDRESSES.USDC_TOKEN) w2 = (w3, Ok precision) ->
  Ethers.parseUnits amount precision = Ok units ->
  let fallback :=
    [ConsoleError "Error converting token amount:" e;
     ConsoleLog "Falling back to 6 decimals for USDC"] in
  let batch := aave_supply_batch usdc aave (toString units) account in
  hasEnoughUSDC env self amount st = (mkState w2 (trace st ++ fallback), Ok true)
  /\ approveAndSupplyToAave env self amount st
     = match env_sendBatchTransaction env batch account w3 with
       | (w4, Ok hash) =>
         (mkState w4 ((trace st ++ fallback)
                      ++ [SendBatchTransaction batch account;
                          ConsoleLog ("Deposit to AAVE completed: " ++ hash)]),
          Ok hash)
       | (w4, Throw e') =>
         (mkState w4 ((trace st ++ fallback)
                      ++ [SendBatchTransaction batch account;
                          ConsoleError "Error in depositing to Aave:" e']),
          Throw e')
       end.
Proof.
  intros Hi Hu Hv Ha Hread1 Hsix Hbal Hrange Hle Hread2 Hparse fallback batch.
  assert (Hready : guard_ready self account usdc) by (exists instance; now repeat split).
  assert (Hconv1 : getTokenAmount env amount CONTRACT_ADDRESSES.USDC_TOKEN st
                   = (mkState w1 (trace st ++ fallback), Ok (toString need))).
  { rewrite (getTokenAmount_read_fails_eval env amount _ st w1 e Hread1).
    now rewrite Hsix. }
  assert (Hguard : hasEnoughUSDC env self amount st
                   = (mkState w2 (trace st ++ fallback), Ok true)).
  { rewrite (hasEnoughUSDC_eval env self amount st _ account usdc need balance w2
               Hready Hconv1 Hbal Hrange).
    assert (E : (balance >=? need) = true) by (rewrite Z.geb_leb; now apply Z.leb_le).
    now rewrite E. }
  split; [exact Hguard |].
  assert (Hconv2 : getTokenAmount env amount CONTRACT_ADDRESSES.USDC_TOKEN
                     (mkState w2 (trace st ++ fallback))
                   = (mkState w3 (trace st ++ fallback), Ok (toString units))).
  { now apply getTokenAmount_read_ok with (precision := precision). }
  rewrite (approveAndSupplyToAave_eval env self amount st _ _ instance account usdc aave
             (toString units) Hi Hu Hv Ha Hguard Hconv2).
  reflexivity.
Qed.

Lemma guard_and_batch_convert_independently_witness :
  hasEnoughUSDC flaky Sample.wallet "1" (mkState 0%nat [])
  = (mkState 1%nat
       ([] ++ [ConsoleError "Error converting token amount:" (Error "rpc timeout");
               ConsoleLog "Falling back to 6 decimals for USDC"]),
     Ok true)
  /\ approveAndSupplyToAave flaky Sample.wallet "1" (mkState 0%nat [])
     = match env_sendBatchTransaction flaky
               (aave_supply_batch (getContract CONTRACT_ADDRESSES.USDC_TOKEN)
                  (getContract CONTRACT_ADDRESSES.AAVE)
                  (toString 1000000000000000000) Sample.account)
               Sample.account 2%nat with
       | (w4, Ok hash) =>
         (mkState w4
            (([] ++ [ConsoleError "Error converting token amount:" (Error "rpc timeout");
                     ConsoleLog "Falling back to 6 decimals for USDC"])
             ++ [SendBatchTransaction
                   (aave_supply_batch (getContract CONTRACT_ADDRESSES.USDC_TOKEN)
                      (getContract CONTRACT_ADDRESSES.AAVE)
                      (toString 1000000000000000000) Sample.account)
                   Sample.account;
                 ConsoleLog ("Deposit to AAVE completed: " ++ hash)]),
          Ok hash)
       | (w4, Throw e') =>
         (mkState w4
            (([] ++ [ConsoleError "Error converting token amount:" (Error "rpc timeout");
                     ConsoleLog "Falling back to 6 decimals for USDC"])
             ++ [SendBatchTransaction
                   (aave_supply_batch (getContract CONTRACT_ADDRESSES.USDC_TOKEN)
                      (getContract CONTRACT_ADDRESSES.AAVE)
                      (toString 1000000000000000000) Sample.account)
                   Sample.account;
                 ConsoleError "Error in depositing to Aave:" e']),
          Throw e')
       end.
Proof.
  apply (guard_and_batch_convert_independently flaky Sample.wallet "1" (mkState 0%nat [])
           (mkSmartWallet (Some Sample.account)) Sample.account
           (getContract CONTRACT_ADDRESSES.USDC_TOKEN) (getContract CONTRACT_ADDRESSES.AAVE)
           1%nat 1%nat 2%nat (Error "rpc timeout") 18 1000000 1000000000000000000 1000000);
    try reflexivity; lia.
Defined.
